(** * Tractive sensor platform: a shallow embedding

    Source: [homeassistant/components/tractive/sensor.py].

    The module is a table of ten entity descriptions ([SENSOR_TYPES]), an
    entity class ([TractiveSensor]) whose update handler projects one key of
    an event dictionary into the entity state, and a setup function
    ([async_setup_entry]) that builds one entity per (description, trackable)
    pair.

    Modelling choices.
    - Python values that flow through the module (event payload values,
      the ['_id'] entries of the trackable dictionaries) are the inductive
      [value]: [None], [bool], [int] (as [Z]) and [str].
    - [str] is [string].  [str.lower] is the interpreter's and follows the
      Unicode case mappings; it is the method [str_lower] of the class
      [StrLower], a parameter of the development of which only the
      behaviour on ASCII text is taken as known.
    - [dict]s with string keys are [gmap string _]; [d[k]] is [getitem],
      which raises [KeyError k] when the key is absent.
    - Exceptions are the [Raise] results of the [result] monad.  A method
      that mutates [self] is a function [self -> result unit * self]: the
      object survives the exception, so that what was (not) stored before
      a raise can be stated.
    - The string constants imported from [.const] and [homeassistant.const]
      are not part of this file; those of [.const] are the fields of the
      record [TractiveConst], over which every definition is parametric. *)

From stdpp Require Import base option list list_numbers strings pretty gmap.
From Stdlib Require Import Ascii ZArith Lia.

(** ** Python values *)

Inductive value : Type :=
  | VNone
  | VBool (b : bool)
  | VInt (n : Z)
  | VStr (s : string).

Global Instance value_eq_dec : EqDecision value.
Proof. solve_decision. Defined.

(** [isinstance(v, str)] *)
Definition isinstance_str (v : value) : bool :=
  match v with VStr _ => true | _ => false end.

(** [format(v, "")], which is what an f-string replacement field [{v}]
    evaluates to: the string itself for a [str], the decimal numeral for an
    [int], and the names [True], [False], [None]. *)
Definition py_format (v : value) : string :=
  match v with
  | VNone => "None"
  | VBool true => "True"
  | VBool false => "False"
  | VInt n => pretty n
  | VStr s => s
  end.

(** ** [str.lower] *)

Definition is_ascii_upper (a : ascii) : bool :=
  let n := N_of_ascii a in ((65 <=? n) && (n <=? 90))%N.

Definition ascii_lower (a : ascii) : ascii :=
  if is_ascii_upper a then ascii_of_N (N_of_ascii a + 32) else a.

(** Lower-casing of the letters [A]-[Z], every other byte left alone. *)
Fixpoint ascii_str_lower (s : string) : string :=
  match s with
  | EmptyString => EmptyString
  | String a s' => String (ascii_lower a) (ascii_str_lower s')
  end.

(** [s.isascii()]: every byte of the text is below 128. *)
Fixpoint is_ascii (s : string) : bool :=
  match s with
  | EmptyString => true
  | String a s' => (N_of_ascii a <? 128)%N && is_ascii s'
  end.

(** Python's [str.lower].  It belongs to the interpreter, not to this
    module, and on text beyond ASCII it follows the Unicode case mappings
    ('ÄB' becomes 'äb'), which are not modelled.  It is therefore a
    parameter; what is taken as known is its behaviour on ASCII text, where
    it lower-cases [A]-[Z] and leaves every other character alone. *)
Class StrLower : Type := {
  str_lower : string → string;
  str_lower_ascii : ∀ s, is_ascii s = true → str_lower s = ascii_str_lower s;
}.

(** An instance for the examples: [A]-[Z] lower-cased, other bytes kept. *)
Definition ascii_StrLower : StrLower :=
  {| str_lower := ascii_str_lower;
     str_lower_ascii := λ s _, eq_refl |}.

(** ** Exceptions and the two monads *)

Inductive exn : Type :=
  | KeyError (k : string)
  | TypeError.

Inductive result (A : Type) : Type :=
  | Ok (a : A)
  | Raise (e : exn).
Arguments Ok {A} a.
Arguments Raise {A} e.

Global Instance result_ret : MRet result := λ A a, Ok a.
Global Instance result_bind : MBind result := λ A B f m,
  match m with Ok a => f a | Raise e => Raise e end.
Global Instance result_fmap : FMap result := λ A B f m,
  match m with Ok a => Ok (f a) | Raise e => Raise e end.

(** [d[k]] *)
Definition getitem {V : Type} (d : gmap string V) (k : string) : result V :=
  match d !! k with
  | Some v => Ok v
  | None => Raise (KeyError k)
  end.

(** A method of an object of class [S]: it may mutate [self] and may raise;
    the object outlives the exception. *)
Definition method (S A : Type) : Type := S → result A * S.

Global Instance method_ret {S} : MRet (method S) := λ A a self, (Ok a, self).
Global Instance method_bind {S} : MBind (method S) := λ A B f m self,
  match m self with
  | (Ok a, self') => f a self'
  | (Raise e, self') => (Raise e, self')
  end.

Definition get_self {S} : method S S := λ self, (Ok self, self).
Definition set_self {S} (f : S → S) : method S unit := λ self, (Ok (), f self).
Definition lift_result {S A} (r : result A) : method S A := λ self, (r, self).

(** ** Constants of other modules *)

(** The names imported from [.const].  That module is not part of this
    file, so their values are parameters of the development. *)
Record TractiveConst : Type := {
  ATTR_ACTIVITY_LABEL : string;
  ATTR_CALORIES : string;
  ATTR_DAILY_GOAL : string;
  ATTR_MINUTES_ACTIVE : string;
  ATTR_MINUTES_DAY_SLEEP : string;
  ATTR_MINUTES_NIGHT_SLEEP : string;
  ATTR_MINUTES_REST : string;
  ATTR_SLEEP_LABEL : string;
  ATTR_TRACKER_STATE : string;
  CLIENT : string;
  DOMAIN : string;
  TRACKABLES : string;
  TRACKER_ACTIVITY_STATUS_UPDATED : string;
  TRACKER_HARDWARE_STATUS_UPDATED : string;
  TRACKER_WELLNESS_STATUS_UPDATED : string;
}.

(** Modelled from the spec: [ATTR_BATTERY_LEVEL] is imported from
    [homeassistant.const], which is not part of this file.  The spec's
    example names the battery-level key in an event as ["battery_level"]. *)
Definition ATTR_BATTERY_LEVEL : string := "battery_level".

(** [PERCENTAGE], [UnitOfTime.MINUTES] and the literal ["kcal"]. *)
Inductive unit_of_measurement : Type :=
  | PERCENTAGE
  | UnitOfTime_MINUTES
  | unit_literal (s : string).

Inductive SensorDeviceClass : Type := BATTERY | ENUM.
Inductive SensorStateClass : Type := TOTAL.
Inductive EntityCategory : Type := DIAGNOSTIC.

(** ** Entity descriptions *)

(** [TractiveSensorEntityDescription]: the fields of
    [SensorEntityDescription] that the table sets, the required
    [signal_prefix] of [TractiveRequiredKeysMixin], and the two fields the
    class adds. *)
Record TractiveSensorEntityDescription : Type := {
  key : string;
  translation_key : option string;
  native_unit_of_measurement : option unit_of_measurement;
  device_class : option SensorDeviceClass;
  state_class : option SensorStateClass;
  entity_category : option EntityCategory;
  icon : option string;
  options : option (list string);
  signal_prefix : string;
  hardware_sensor : bool;
  value_fn : value → value;
}.

(** The defaults of the two added fields: [hardware_sensor: bool = False]
    and [value_fn = lambda state: state]. *)
Definition default_hardware_sensor : bool := false.
Definition default_value_fn : value → value := λ state, state.

(** [lambda state: state.lower() if isinstance(state, str) else state] *)
Definition lower_value_fn `{StrLower} : value → value := λ state,
  match state with
  | VStr s => VStr (str_lower s)
  | _ => state
  end.

(** [SENSOR_TYPES], in source order. *)
Definition SENSOR_TYPES `{StrLower} (K : TractiveConst)
  : list TractiveSensorEntityDescription :=
  [ {| key := ATTR_BATTERY_LEVEL;
       translation_key := Some "tracker_battery_level";
       native_unit_of_measurement := Some PERCENTAGE;
       device_class := Some BATTERY;
       state_class := None;
       entity_category := Some DIAGNOSTIC;
       icon := None;
       options := None;
       signal_prefix := TRACKER_HARDWARE_STATUS_UPDATED K;
       hardware_sensor := true;
       value_fn := default_value_fn |};
    {| key := ATTR_TRACKER_STATE K;
       translation_key := Some "tracker_state";
       native_unit_of_measurement := None;
       device_class := Some ENUM;
       state_class := None;
       entity_category := Some DIAGNOSTIC;
       icon := Some "mdi:radar";
       options := Some ["not_reporting"; "operational";
                        "system_shutdown_user"; "system_startup"];
       signal_prefix := TRACKER_HARDWARE_STATUS_UPDATED K;
       hardware_sensor := true;
       value_fn := default_value_fn |};
    {| key := ATTR_MINUTES_ACTIVE K;
       translation_key := Some "activity_time";
       native_unit_of_measurement := Some UnitOfTime_MINUTES;
       device_class := None;
       state_class := Some TOTAL;
       entity_category := None;
       icon := Some "mdi:clock-time-eight-outline";
       options := None;
       signal_prefix := TRACKER_ACTIVITY_STATUS_UPDATED K;
       hardware_sensor := default_hardware_sensor;
       value_fn := default_value_fn |};
    {| key := ATTR_MINUTES_REST K;
       translation_key := Some "rest_time";
       native_unit_of_measurement := Some UnitOfTime_MINUTES;
       device_class := None;
       state_class := Some TOTAL;
       entity_category := None;
       icon := Some "mdi:clock-time-eight-outline";
       options := None;
       signal_prefix := TRACKER_WELLNESS_STATUS_UPDATED K;
       hardware_sensor := default_hardware_sensor;
       value_fn := default_value_fn |};
    {| key := ATTR_CALORIES K;
       translation_key := Some "calories";
       native_unit_of_measurement := Some (unit_literal "kcal");
       device_class := None;
       state_class := Some TOTAL;
       entity_category := None;
       icon := Some "mdi:fire";
       options := None;
       signal_prefix := TRACKER_WELLNESS_STATUS_UPDATED K;
       hardware_sensor := default_hardware_sensor;
       value_fn := default_value_fn |};
    {| key := ATTR_DAILY_GOAL K;
       translation_key := Some "daily_goal";
       native_unit_of_measurement := Some UnitOfTime_MINUTES;
       device_class := None;
       state_class := None;
       entity_category := None;
       icon := Some "mdi:flag-checkered";
       options := None;
       signal_prefix := TRACKER_ACTIVITY_STATUS_UPDATED K;
       hardware_sensor := default_hardware_sensor;
       value_fn := default_value_fn |};
    {| key := ATTR_MINUTES_DAY_SLEEP K;
       translation_key := Some "minutes_day_sleep";
       native_unit_of_measurement := Some UnitOfTime_MINUTES;
       device_class := None;
       state_class := Some TOTAL;
       entity_category := None;
       icon := Some "mdi:sleep";
       options := None;
       signal_prefix := TRACKER_WELLNESS_STATUS_UPDATED K;
       hardware_sensor := default_hardware_sensor;
       value_fn := default_value_fn |};
    {| key := ATTR_MINUTES_NIGHT_SLEEP K;
       translation_key := Some "minutes_night_sleep";
       native_unit_of_measurement := Some UnitOfTime_MINUTES;
       device_class := None;
       state_class := Some TOTAL;
       entity_category := None;
       icon := Some "mdi:sleep";
       options := None;
       signal_prefix := TRACKER_WELLNESS_STATUS_UPDATED K;
       hardware_sensor := default_hardware_sensor;
       value_fn := default_value_fn |};
    {| key := ATTR_SLEEP_LABEL K;
       translation_key := Some "sleep";
       native_unit_of_measurement := None;
       device_class := Some ENUM;
       state_class := None;
       entity_category := None;
       icon := Some "mdi:sleep";
       options := Some ["ok"; "good"];
       signal_prefix := TRACKER_WELLNESS_STATUS_UPDATED K;
       hardware_sensor := default_hardware_sensor;
       value_fn := lower_value_fn |};
    {| key := ATTR_ACTIVITY_LABEL K;
       translation_key := Some "activity";
       native_unit_of_measurement := None;
       device_class := Some ENUM;
       state_class := None;
       entity_category := None;
       icon := Some "mdi:run";
       options := Some ["ok"; "good"];
       signal_prefix := TRACKER_WELLNESS_STATUS_UPDATED K;
       hardware_sensor := default_hardware_sensor;
       value_fn := lower_value_fn |} ].

(** ** Trackables, the per-entry storage, and the entity class *)

(** The [Trackables] dataclass of the package: the two dictionaries this
    module reads.  Attribute access on a dataclass instance cannot fail;
    the subscript ['_id'] can. *)
Record Trackables : Type := {
  trackable : gmap string value;
  tracker_details : gmap string value;
}.

Record ConfigEntry : Type := { entry_id : string }.

Section Tractive.

(** The client is opaque to this module: it is only passed along. *)
Context {TractiveClient : Type}.
(** The interpreter's [str.lower]. *)
Context {py_str : StrLower}.
(** The constants of [.const]. *)
Context (K : TractiveConst).

(** What [hass.data[DOMAIN][entry.entry_id]] may hold under a key: the
    client handle or the list of trackables.  Nothing in the module checks
    which one it gets. *)
Inductive obj : Type :=
  | OClient (c : TractiveClient)
  | OTrackables (items : list Trackables).

Record HomeAssistant : Type := {
  data : gmap string (gmap string (gmap string obj));
}.

(** [iter(o)], as the inner [for item in trackables] performs it. *)
Definition py_iter (o : obj) : result (list Trackables) :=
  match o with
  | OTrackables items => Ok items
  | OClient _ => Raise TypeError
  end.

(** The state of the base class [TractiveEntity] (with the attributes of
    [Entity] this module assigns).  [ha_state_writes] counts the state
    refreshes the base handler has scheduled. *)
Record TractiveEntity : Type := {
  _client : obj;
  _trackable : gmap string value;
  _tracker_details : gmap string value;
  _dispatcher_signal : string;
  _attr_unique_id : option string;
  _attr_available : bool;
  ha_state_writes : nat;
}.

(** A [TractiveSensor] object: the base-class state, the description, and
    the native value ([None] until the first update stores one). *)
Record TractiveSensor : Type := {
  entity : TractiveEntity;
  entity_description : TractiveSensorEntityDescription;
  _attr_native_value : option value;
}.

Definition set_unique_id (u : string) (e : TractiveEntity) : TractiveEntity :=
  {| _client := _client e; _trackable := _trackable e;
     _tracker_details := _tracker_details e;
     _dispatcher_signal := _dispatcher_signal e;
     _attr_unique_id := Some u;
     _attr_available := _attr_available e;
     ha_state_writes := ha_state_writes e |}.

Definition set_available (b : bool) (e : TractiveEntity) : TractiveEntity :=
  {| _client := _client e; _trackable := _trackable e;
     _tracker_details := _tracker_details e;
     _dispatcher_signal := _dispatcher_signal e;
     _attr_unique_id := _attr_unique_id e;
     _attr_available := b;
     ha_state_writes := ha_state_writes e |}.

Definition write_ha_state (e : TractiveEntity) : TractiveEntity :=
  {| _client := _client e; _trackable := _trackable e;
     _tracker_details := _tracker_details e;
     _dispatcher_signal := _dispatcher_signal e;
     _attr_unique_id := _attr_unique_id e;
     _attr_available := _attr_available e;
     ha_state_writes := S (ha_state_writes e) |}.

Definition set_native_value (v : value) (s : TractiveSensor) : TractiveSensor :=
  {| entity := entity s;
     entity_description := entity_description s;
     _attr_native_value := Some v |}.

Definition on_entity (f : TractiveEntity → TractiveEntity)
    (s : TractiveSensor) : TractiveSensor :=
  {| entity := f (entity s);
     entity_description := entity_description s;
     _attr_native_value := _attr_native_value s |}.

(** Modelled from the spec: [TractiveEntity.__init__] lives in [.entity],
    which is not part of this file.  The spec says it receives the client,
    the two records and the composed signal name and registers for updates
    on that signal; [Entity]'s class default for availability is [True]. *)
Definition TractiveEntity_init (client : obj)
    (trackable tracker_details : gmap string value)
    (dispatcher_signal : string) : TractiveEntity :=
  {| _client := client; _trackable := trackable;
     _tracker_details := tracker_details;
     _dispatcher_signal := dispatcher_signal;
     _attr_unique_id := None;
     _attr_available := true;
     ha_state_writes := 0 |}.

(** Modelled from the spec: [TractiveEntity.handle_status_update] lives in
    [.entity], which is not part of this file.  The spec describes it as the
    shared post-update bookkeeping: marking availability true and scheduling
    a UI refresh. *)
Definition TractiveEntity_handle_status_update
    (event : gmap string value) : method TractiveSensor unit :=
  set_self (on_entity (set_available true)) ≫= λ _,
  set_self (on_entity write_ha_state).

(** The local [dispatcher_signal] of [TractiveSensor.__init__]. *)
Definition dispatcher_signal_of (item : Trackables)
    (description : TractiveSensorEntityDescription) : result string :=
  if hardware_sensor description then
    tracker_id ← getitem (tracker_details item) "_id";
    Ok (signal_prefix description +:+ "-" +:+ py_format tracker_id)
  else
    trackable_id ← getitem (trackable item) "_id";
    Ok (signal_prefix description +:+ "-" +:+ py_format trackable_id).

(** [TractiveSensor.__init__].  An exception discards the object under
    construction, so the constructor is a [result]. *)
Definition TractiveSensor_init (client : obj) (item : Trackables)
    (description : TractiveSensorEntityDescription) : result TractiveSensor :=
  dispatcher_signal ← dispatcher_signal_of item description;
  let self := TractiveEntity_init client (trackable item)
                (tracker_details item) dispatcher_signal in
  trackable_id ← getitem (trackable item) "_id";
  let self := set_unique_id
                (py_format trackable_id +:+ "_" +:+ key description) self in
  let self := set_available false self in
  Ok {| entity := self;
        entity_description := description;
        _attr_native_value := None |}.

(** [TractiveSensor.handle_status_update] *)
Definition handle_status_update
    (event : gmap string value) : method TractiveSensor unit :=
  self ← get_self;
  raw ← lift_result (getitem event (key (entity_description self)));
  set_self (set_native_value (value_fn (entity_description self) raw)) ≫= λ _,
  TractiveEntity_handle_status_update event.

(** Modelled from the spec: the subscription itself is made by the base
    class and the host's dispatcher, neither part of this file.  An entity
    is registered on its own signal name, so an event published on [signal]
    reaches the handler exactly when the names agree. *)
Definition dispatcher_send (signal : string)
    (event : gmap string value) : method TractiveSensor unit :=
  self ← get_self;
  if decide (signal = _dispatcher_signal (entity self))
  then handle_status_update event
  else mret ().

(** A run of published events; the host keeps the entity whatever the
    handler's outcome. *)
Definition deliver (events : list (string * gmap string value))
    (self : TractiveSensor) : TractiveSensor :=
  foldl (λ s ev, (dispatcher_send ev.1 ev.2 s).2) self events.

(** [hass.data[DOMAIN][entry.entry_id][slot]] *)
Definition entry_data (hass : HomeAssistant) (entry : ConfigEntry)
    (slot : string) : result obj :=
  by_domain ← getitem (data hass) (DOMAIN K);
  by_entry ← getitem by_domain (entry_id entry);
  getitem by_entry slot.

(** The list comprehension of [async_setup_entry]: descriptions in the
    outer loop, trackables in the inner one; the first exception ends it. *)
Definition build_entities (client trackables : obj)
  : result (list TractiveSensor) :=
  mjoin <$> mapM (λ description,
                    items ← py_iter trackables;
                    mapM (λ item, TractiveSensor_init client item description)
                         items)
                 (SENSOR_TYPES K).

(** [async_setup_entry].  The add-entities callback is the host's; [W] is
    whatever state it acts on.  When setup raises, the callback has not
    been called. *)
Definition async_setup_entry {W : Type} (hass : HomeAssistant)
    (entry : ConfigEntry)
    (async_add_entities : list TractiveSensor → W → W) (w : W) : result W :=
  client ← entry_data hass entry (CLIENT K);
  trackables ← entry_data hass entry (TRACKABLES K);
  entities ← build_entities client trackables;
  Ok (async_add_entities entities w).

End Tractive.

(** ** An instance of the constants, for the examples *)

(** Each name of [.const] bound to a string in the package's style
    (lower-case, underscore-separated).  The theorems below hold for every
    [TractiveConst]; this instance only feeds the concrete examples. *)
Definition sample_const : TractiveConst :=
  {| ATTR_ACTIVITY_LABEL := "activity_label";
     ATTR_CALORIES := "calories";
     ATTR_DAILY_GOAL := "daily_goal";
     ATTR_MINUTES_ACTIVE := "minutes_active";
     ATTR_MINUTES_DAY_SLEEP := "minutes_day_sleep";
     ATTR_MINUTES_NIGHT_SLEEP := "minutes_night_sleep";
     ATTR_MINUTES_REST := "minutes_rest";
     ATTR_SLEEP_LABEL := "sleep_label";
     ATTR_TRACKER_STATE := "tracker_state";
     CLIENT := "client";
     DOMAIN := "tractive";
     TRACKABLES := "trackables";
     TRACKER_ACTIVITY_STATUS_UPDATED := "tractive_tracker_activity_updated";
     TRACKER_HARDWARE_STATUS_UPDATED :=
       "tractive_tracker_hardware_status_updated";
     TRACKER_WELLNESS_STATUS_UPDATED := "tractive_tracker_wellness_updated" |}.

(** Two trackables and the storage of one configuration entry. *)
Definition sample_item (trackable_id tracker_id : string) : Trackables :=
  {| trackable := {[ "_id" := VStr trackable_id ]};
     tracker_details := {[ "_id" := VStr tracker_id ]} |}.

Definition sample_items : list Trackables :=
  [ sample_item "pet_1" "HW0001"; sample_item "pet_2" "HW0002" ].

Definition sample_hass : @HomeAssistant unit :=
  {| data := {[ "tractive" :=
       {[ "entry-1" := {[ "client" := OClient ();
                          "trackables" := OTrackables sample_items ]} ]} ]} |}.

Definition sample_entry : ConfigEntry := {| entry_id := "entry-1" |}.

(** Entry [i] of the table (a blank description beyond its end). *)
Definition description_at `{StrLower} (K : TractiveConst) (i : nat)
  : TractiveSensorEntityDescription :=
  match SENSOR_TYPES K !! i with
  | Some d => d
  | None =>
      {| key := ""; translation_key := None;
         native_unit_of_measurement := None; device_class := None;
         state_class := None; entity_category := None; icon := None;
         options := None; signal_prefix := "";
         hardware_sensor := default_hardware_sensor;
         value_fn := default_value_fn |}
  end.

(** The entity of the first sample trackable for entry [i] of the table,
    written out: [signal] and [unique_id] are the two composed names. *)
Definition sample_sensor (i : nat) (signal unique_id : string)
  : @TractiveSensor unit :=
  {| entity :=
       {| _client := OClient ();
          _trackable := {[ "_id" := VStr "pet_1" ]};
          _tracker_details := {[ "_id" := VStr "HW0001" ]};
          _dispatcher_signal := signal;
          _attr_unique_id := Some unique_id;
          _attr_available := false;
          ha_state_writes := 0 |};
     entity_description := description_at (H := ascii_StrLower) sample_const i;
     _attr_native_value := None |}.

(** The host's entity list as the state the add-entities callback acts on. *)
Definition sample_add_entities
    (entities platform : list (@TractiveSensor unit))
  : list (@TractiveSensor unit) :=
  platform ++ entities.

(** ** Predicates used in the statements *)

(** A trackable record that carries both identifiers. *)
Definition well_formed (item : Trackables) : Prop :=
  is_Some (trackable item !! "_id") ∧ is_Some (tracker_details item !! "_id").

(** The trackable identifier as the f-strings interpolate it. *)
Definition trackable_id (item : Trackables) : option string :=
  py_format <$> trackable item !! "_id".

(** [ends_with s suffix]: [s.endswith(suffix)]. *)
Fixpoint ends_with (s suffix : string) : bool :=
  if decide (s = suffix) then true
  else match s with
       | EmptyString => false
       | String _ s' => ends_with s' suffix
       end.

(** No key of the table is another key of the table preceded by text that
    ends in an underscore: then [tid_key] can be split in one way only. *)
Definition keys_unambiguous (keys : list string) : bool :=
  forallb (λ k1, forallb (λ k2, negb (ends_with k2 ("_" +:+ k1))) keys) keys.

Global Instance well_formed_dec item : Decision (well_formed item).
Proof. unfold well_formed. apply _. Defined.

(** A list whose second trackable has no tracker-hardware identifier, and
    a storage that holds it. *)
Definition sample_bad_items : list Trackables :=
  [ sample_item "pet_1" "HW0001";
    {| trackable := {[ "_id" := VStr "pet_2" ]}; tracker_details := ∅ |} ].

Definition sample_bad_hass : @HomeAssistant unit :=
  {| data := {[ "tractive" :=
       {[ "entry-1" := {[ "client" := OClient ();
                          "trackables" := OTrackables sample_bad_items ]} ]} ]} |}.

(** A storage the package's setup has not filled for the entry yet. *)
Definition sample_unset_hass : @HomeAssistant unit :=
  {| data := {[ "tractive" := ∅ ]} |}.

(** The unique identifiers of a list of entities. *)
Definition unique_ids {TractiveClient : Type}
    (entities : list (@TractiveSensor TractiveClient)) : list (option string) :=
  (λ e, _attr_unique_id (entity e)) <$> entities.

(** The identifier a description selects from a trackable, as the signal
    name interpolates it. *)
Definition selected_id (item : Trackables)
    (d : TractiveSensorEntityDescription) : option string :=
  py_format <$>
    (if hardware_sensor d then tracker_details item else trackable item)
      !! "_id".

(** ** Auxiliary lemmas *)

Lemma ascii_str_lower_length s :
  String.length (ascii_str_lower s) = String.length s.
Proof. induction s as [|a s IH]; simpl; congruence. Qed.

Lemma ascii_lower_idemp a : ascii_lower (ascii_lower a) = ascii_lower a.
Proof. destruct a as [[] [] [] [] [] [] [] []]; reflexivity. Qed.

Lemma ascii_str_lower_idemp s :
  ascii_str_lower (ascii_str_lower s) = ascii_str_lower s.
Proof.
  induction s as [|a s IH]; simpl; [done|].
  by rewrite ascii_lower_idemp, IH.
Qed.

Lemma ascii_lower_is_ascii a :
  (N_of_ascii a <? 128)%N = true → (N_of_ascii (ascii_lower a) <? 128)%N = true.
Proof. destruct a as [[] [] [] [] [] [] [] []]; intros Ha; done. Qed.

Lemma ascii_str_lower_is_ascii s :
  is_ascii s = true → is_ascii (ascii_str_lower s) = true.
Proof.
  induction s as [|a s IH]; simpl; [done|].
  intros [Ha Hs]%andb_prop. by rewrite ascii_lower_is_ascii, IH.
Qed.

Example ascii_str_lower_mixed : ascii_str_lower "Good" = "good".
Proof. reflexivity. Qed.

(** On ASCII text [str.lower] is idempotent and stays within ASCII. *)
Lemma str_lower_ascii_idemp `{StrLower} s :
  is_ascii s = true → str_lower (str_lower s) = str_lower s.
Proof.
  intros Hs. rewrite (str_lower_ascii s Hs).
  rewrite (str_lower_ascii _ (ascii_str_lower_is_ascii s Hs)).
  apply ascii_str_lower_idemp.
Qed.

Lemma getitem_Some {V} (d : gmap string V) k v :
  d !! k = Some v → getitem d k = Ok v.
Proof. unfold getitem. by intros ->. Qed.

Lemma getitem_None {V} (d : gmap string V) k :
  d !! k = None → getitem d k = Raise (KeyError k).
Proof. unfold getitem. by intros ->. Qed.

Lemma getitem_Ok_inv {V} (d : gmap string V) k v :
  getitem d k = Ok v → d !! k = Some v.
Proof. unfold getitem. destruct (d !! k); [by intros [= ->]|discriminate]. Qed.

(** [String.append] is never unfolded by [simpl]; its two equations are
    used as rewrite rules instead. *)
Lemma string_app_nil_l (s : string) : "" +:+ s = s.
Proof. reflexivity. Qed.

Lemma string_app_cons a (s t : string) : String a s +:+ t = String a (s +:+ t).
Proof. reflexivity. Qed.

Ltac str_simpl :=
  repeat (rewrite string_app_cons in * || rewrite string_app_nil_l in *).

Lemma string_app_nil_r (s : string) : s +:+ "" = s.
Proof. induction s; str_simpl; congruence. Qed.

Lemma ends_with_spec s suffix :
  ends_with s suffix = true ↔ ∃ p, s = p +:+ suffix.
Proof.
  induction s as [|a s IH]; simpl.
  - case_decide as Hs; split; try done.
    + intros _. exists "". by subst.
    + intros [[|b p] Hp]; str_simpl; [by subst|discriminate].
  - case_decide as Hs.
    + split; [|done]. intros _. exists "". by subst.
    + rewrite IH. split.
      * intros [p ->]. by exists (String a p).
      * intros [[|b p] Hp]; str_simpl; [by subst|].
        injection Hp as -> ->. by exists p.
Qed.

(** Two ways of cutting the same string differ by a common middle part. *)
Lemma string_app_eq_cases (a b c d : string) :
  a +:+ b = c +:+ d →
  (∃ x, c = a +:+ x ∧ b = x +:+ d) ∨ (∃ x, a = c +:+ x ∧ d = x +:+ b).
Proof.
  revert c. induction a as [|ch a IH]; intros c Heq; str_simpl.
  - subst b. left. by exists c.
  - destruct c as [|ch' c]; str_simpl.
    + subst d. right. by exists (String ch a).
    + injection Heq as <- Heq.
      destruct (IH _ Heq) as [[x [-> ->]]|[x [-> ->]]].
      * left. by exists x.
      * right. by exists x.
Qed.

Lemma keys_unambiguous_spec keys k1 k2 p :
  keys_unambiguous keys = true → k1 ∈ keys → k2 ∈ keys →
  k2 ≠ p +:+ "_" +:+ k1.
Proof.
  unfold keys_unambiguous. rewrite forallb_forall.
  intros Hall H1 H2 Heq.
  apply list_elem_of_In in H1, H2.
  specialize (Hall _ H1). rewrite forallb_forall in Hall.
  specialize (Hall _ H2). apply negb_true_iff in Hall.
  assert (ends_with k2 ("_" +:+ k1) = true) as Hends; [|congruence].
  apply ends_with_spec. by exists p.
Qed.

(** With an unambiguous key table, [tid_key] determines both parts. *)
Lemma unique_id_split keys t1 t2 k1 k2 :
  keys_unambiguous keys = true → k1 ∈ keys → k2 ∈ keys →
  t1 +:+ "_" +:+ k1 = t2 +:+ "_" +:+ k2 → t1 = t2 ∧ k1 = k2.
Proof.
  intros Hk H1 H2 Heq.
  destruct (string_app_eq_cases _ _ _ _ Heq) as [[x [-> Hx]]|[x [-> Hx]]].
  - destruct x as [|ch x]; str_simpl.
    + injection Hx as ->. by rewrite string_app_nil_r.
    + injection Hx as <- ->.
      by destruct (keys_unambiguous_spec keys k2 (x +:+ "_" +:+ k2) x).
  - destruct x as [|ch x]; str_simpl.
    + injection Hx as ->. by rewrite string_app_nil_r.
    + injection Hx as <- ->.
      by destruct (keys_unambiguous_spec keys k1 (x +:+ "_" +:+ k1) x).
Qed.

(** [mapM] in the [result] monad succeeds exactly when every call does. *)
Lemma mapM_result_Ok {A B} (f : A → result B) (l : list A) (k : list B) :
  mapM f l = Ok k ↔ Forall2 (λ x y, f x = Ok y) l k.
Proof.
  revert k. induction l as [|x l IH]; intros k; simpl.
  - split; [intros [= <-]; constructor|by intros ->%Forall2_nil_inv_l].
  - unfold mbind, mret, result_bind, result_ret.
    destruct (f x) as [y|] eqn:Hy.
    + destruct (mapM f l) as [k'|] eqn:Hk'; simpl.
      * split.
        -- intros [= <-]. constructor; [done|]. by apply IH.
        -- intros (y' & k'' & Hy' & Hk'' & ->)%Forall2_cons_inv_l.
           apply IH in Hk''. congruence.
      * split; [done|].
        intros (y' & k'' & _ & Hk'' & _)%Forall2_cons_inv_l.
        apply IH in Hk''. discriminate.
    + split; [done|].
      intros (y' & k'' & Hy' & _)%Forall2_cons_inv_l. congruence.
Qed.

Lemma fmap_result_Ok {A B} (f : A → B) (m : result A) (b : B) :
  f <$> m = Ok b ↔ ∃ a, m = Ok a ∧ b = f a.
Proof.
  destruct m as [a|e]; simpl; split.
  - intros [= <-]. by exists a.
  - by intros (a' & [= <-] & ->).
  - done.
  - by intros (a' & [=] & _).
Qed.

Lemma Forall2_exists_l {A B} (R : B → A → Prop) (l : list A) :
  Forall (λ x, ∃ y, R y x) l → ∃ k, Forall2 R k l.
Proof.
  induction 1 as [|x l [y Hy] _ [k Hk]]; [by exists []|].
  exists (y :: k). by constructor.
Qed.

Lemma list_prod_cons {A B} (x : A) (l : list A) (k : list B) :
  list_prod (x :: l) k = (pair x <$> k) ++ list_prod l k.
Proof. reflexivity. Qed.

Lemma length_list_prod {A B} (l : list A) (k : list B) :
  length (list_prod l k) = length l * length k.
Proof.
  induction l as [|x l IH]; [done|].
  rewrite list_prod_cons, length_app, length_fmap, IH. simpl. lia.
Qed.

Lemma elem_of_list_prod {A B} (l : list A) (k : list B) (p : A * B) :
  p ∈ list_prod l k ↔ p.1 ∈ l ∧ p.2 ∈ k.
Proof.
  destruct p as [x y]. rewrite list_elem_of_In, in_prod_iff.
  by rewrite <-!list_elem_of_In.
Qed.

(** Row-major indexing of the product. *)
Lemma list_prod_lookup {A B} (l : list A) (k : list B) i j x y :
  l !! i = Some x → k !! j = Some y →
  list_prod l k !! (i * length k + j) = Some (x, y).
Proof.
  revert i. induction l as [|x' l IH]; intros i Hx Hy; [done|].
  rewrite list_prod_cons. destruct i as [|i]; simpl in Hx.
  - injection Hx as ->. simpl.
    rewrite lookup_app_l by (rewrite length_fmap; by eapply lookup_lt_Some).
    by rewrite list_lookup_fmap, Hy.
  - rewrite lookup_app_r by (rewrite length_fmap; lia).
    rewrite length_fmap.
    replace (S i * length k + j - length k) with (i * length k + j) by lia.
    by apply IH.
Qed.

Lemma NoDup_list_prod {A B} (l : list A) (k : list B) :
  NoDup l → NoDup k → NoDup (list_prod l k).
Proof.
  intros Hl Hk. induction Hl as [|x l Hx Hl IH]; [constructor|].
  rewrite list_prod_cons. apply NoDup_app. split_and!.
  - apply NoDup_fmap_2; [|done]. by intros ?? [= ->].
  - intros p [y [-> _]]%list_elem_of_fmap [Hin _]%elem_of_list_prod. done.
  - done.
Qed.

Lemma NoDup_fmap_inj_on {A B} (f : A → B) (l : list A) x y :
  NoDup (f <$> l) → x ∈ l → y ∈ l → f x = f y → x = y.
Proof.
  induction l as [|z l IH]; [by intros _ ?%elem_of_nil|].
  rewrite fmap_cons, NoDup_cons.
  intros [Hz Hl] [->|Hx]%elem_of_cons [->|Hy]%elem_of_cons Hf; [done| | |by auto].
  - destruct Hz. rewrite Hf. by apply list_elem_of_fmap_2.
  - destruct Hz. rewrite <-Hf. by apply list_elem_of_fmap_2.
Qed.

Section Properties.

Context {TractiveClient : Type}.
Context {py_str : StrLower}.
Context (K : TractiveConst).

Local Abbreviation obj := (@obj TractiveClient).
Local Abbreviation TractiveSensor := (@TractiveSensor TractiveClient).

Implicit Types (client : obj) (item : Trackables).
Implicit Types (d description : TractiveSensorEntityDescription).
Implicit Types (self e : TractiveSensor) (event : gmap string value).

(** *** The constructor *)

(** The object a successful construction returns. *)
Lemma TractiveSensor_init_Ok_inv client item d e :
  TractiveSensor_init client item d = Ok e →
  ∃ signal tid,
    dispatcher_signal_of item d = Ok signal ∧
    trackable item !! "_id" = Some tid ∧
    e = {| entity :=
             {| _client := client;
                _trackable := trackable item;
                _tracker_details := tracker_details item;
                _dispatcher_signal := signal;
                _attr_unique_id := Some (py_format tid +:+ "_" +:+ key d);
                _attr_available := false;
                ha_state_writes := 0 |};
           entity_description := d;
           _attr_native_value := None |}.
Proof.
  unfold TractiveSensor_init.
  destruct (dispatcher_signal_of item d) as [signal|] eqn:Hsig; [|discriminate].
  simpl. destruct (getitem (trackable item) "_id") as [tid|] eqn:Htid;
    [|discriminate].
  simpl. intros [= <-]. exists signal, tid.
  split_and!; [done|by apply getitem_Ok_inv|done].
Qed.

Lemma dispatcher_signal_of_well_formed item d :
  well_formed item → ∃ signal, dispatcher_signal_of item d = Ok signal.
Proof.
  intros [[tid Htid] [hid Hhid]]. unfold dispatcher_signal_of.
  destruct (hardware_sensor d).
  - rewrite (getitem_Some _ _ _ Hhid). simpl. eauto.
  - rewrite (getitem_Some _ _ _ Htid). simpl. eauto.
Qed.

Lemma TractiveSensor_init_well_formed client item d :
  well_formed item → ∃ e, TractiveSensor_init client item d = Ok e.
Proof.
  intros Hwf. destruct (dispatcher_signal_of_well_formed item d Hwf) as [sg Hsg].
  destruct Hwf as [[tid Htid] _]. unfold TractiveSensor_init.
  rewrite Hsg. simpl. rewrite (getitem_Some _ _ _ Htid). simpl. eauto.
Qed.

(** *** The update handler *)

(** The handler on an event that carries the description's key. *)
Lemma handle_status_update_present self event v :
  event !! key (entity_description self) = Some v →
  handle_status_update event self =
    (Ok (),
     on_entity write_ha_state
       (on_entity (set_available true)
          (set_native_value (value_fn (entity_description self) v) self))).
Proof.
  intros Hv. unfold handle_status_update, get_self, lift_result.
  unfold mbind, method_bind. by rewrite (getitem_Some _ _ _ Hv).
Qed.

(** The handler on an event that lacks the key: the exception leaves the
    object as it was. *)
Lemma handle_status_update_absent self event :
  event !! key (entity_description self) = None →
  handle_status_update event self =
    (Raise (KeyError (key (entity_description self))), self).
Proof.
  intros Hv. unfold handle_status_update, get_self, lift_result.
  unfold mbind, method_bind. by rewrite (getitem_None _ _ Hv).
Qed.

(** *** The description table *)

Lemma SENSOR_TYPES_length : length (SENSOR_TYPES K) = 10.
Proof. reflexivity. Qed.

(** The table positions, for case analysis on a lookup. *)
Lemma SENSOR_TYPES_lookup i d :
  SENSOR_TYPES K !! i = Some d → i < 10.
Proof.
  intros Hd. apply lookup_lt_Some in Hd. by rewrite SENSOR_TYPES_length in Hd.
Qed.

(** C5 (amended).  [SENSOR_TYPES] enumerates ten descriptions, not nine:
    battery level, tracker state, active minutes, rest minutes, calories,
    daily goal, day-sleep minutes, night-sleep minutes, sleep label and
    activity label, in this order. *)
Theorem sensor_types_ten :
  length (SENSOR_TYPES K) = 10 ∧
  key <$> SENSOR_TYPES K =
    [ ATTR_BATTERY_LEVEL; ATTR_TRACKER_STATE K; ATTR_MINUTES_ACTIVE K;
      ATTR_MINUTES_REST K; ATTR_CALORIES K; ATTR_DAILY_GOAL K;
      ATTR_MINUTES_DAY_SLEEP K; ATTR_MINUTES_NIGHT_SLEEP K;
      ATTR_SLEEP_LABEL K; ATTR_ACTIVITY_LABEL K ].
Proof. split; [apply SENSOR_TYPES_length|reflexivity]. Qed.

(** *** The dispatch signal *)

(** C1.  The signal name composed at construction is the description's
    [signal_prefix], a hyphen, and the tracker-hardware identifier when
    [hardware_sensor] is set, the trackable identifier otherwise; it is
    determined by the prefix, the flag and the two identifiers. *)
Theorem dispatcher_signal_by_scope item d :
  (hardware_sensor d = true → ∀ id,
     tracker_details item !! "_id" = Some id →
     dispatcher_signal_of item d =
       Ok (signal_prefix d +:+ "-" +:+ py_format id)) ∧
  (hardware_sensor d = false → ∀ id,
     trackable item !! "_id" = Some id →
     dispatcher_signal_of item d =
       Ok (signal_prefix d +:+ "-" +:+ py_format id)) ∧
  (∀ item' d',
     signal_prefix d' = signal_prefix d →
     hardware_sensor d' = hardware_sensor d →
     tracker_details item' !! "_id" = tracker_details item !! "_id" →
     trackable item' !! "_id" = trackable item !! "_id" →
     dispatcher_signal_of item' d' = dispatcher_signal_of item d).
Proof.
  split_and!.
  - intros Hhw id Hid. unfold dispatcher_signal_of.
    by rewrite Hhw, (getitem_Some _ _ _ Hid).
  - intros Hhw id Hid. unfold dispatcher_signal_of.
    by rewrite Hhw, (getitem_Some _ _ _ Hid).
  - intros item' d' Hp Hhw Hh Ht. unfold dispatcher_signal_of, getitem.
    by rewrite Hp, Hhw, Hh, Ht.
Qed.

(** *** Lookup failures *)

(** C8.  An event that lacks the description's key makes the handler raise
    [KeyError] with the object untouched (nothing is stored in place of the
    missing value), and a trackable that lacks the ['_id'] the description
    selects makes the constructor raise [KeyError]; so does, for every
    description, a trackable whose [trackable] record lacks ['_id'], which
    the unique identifier needs. *)
Theorem missing_key_raises :
  (∀ self event,
     event !! key (entity_description self) = None →
     handle_status_update event self =
       (Raise (KeyError (key (entity_description self))), self)) ∧
  (∀ client item d,
     (if hardware_sensor d then tracker_details item else trackable item)
       !! "_id" = None →
     TractiveSensor_init client item d = Raise (KeyError "_id")) ∧
  (∀ client item d,
     trackable item !! "_id" = None →
     TractiveSensor_init client item d = Raise (KeyError "_id")).
Proof.
  split_and!.
  - apply handle_status_update_absent.
  - intros client item d Hid.
    unfold TractiveSensor_init, dispatcher_signal_of.
    destruct (hardware_sensor d); by rewrite (getitem_None _ _ Hid).
  - intros client item d Hid.
    unfold TractiveSensor_init, dispatcher_signal_of.
    destruct (hardware_sensor d); [|by rewrite (getitem_None _ _ Hid)].
    destruct (getitem (tracker_details item) "_id") as [hid|e] eqn:Hh.
    + simpl. by rewrite (getitem_None _ _ Hid).
    + unfold getitem in Hh. destruct (tracker_details item !! "_id");
        [discriminate|]. by injection Hh as <-.
Qed.

(** *** The value transforms *)

(** C4.  For the two label descriptions (positions 8 and 9 of the table,
    keyed by the sleep label and the activity label), the handler stores a
    string value lower-cased, that is, the result of [str.lower] on it, and
    any other value unchanged.  For ASCII text the stored string is the
    text with [A]-[Z] turned into [a]-[z]. *)
Theorem label_values_lowercased i d self event :
  SENSOR_TYPES K !! i = Some d → i = 8 ∨ i = 9 →
  entity_description self = d →
  (key d = ATTR_SLEEP_LABEL K ∨ key d = ATTR_ACTIVITY_LABEL K) ∧
  (∀ s, event !! key d = Some (VStr s) →
     (handle_status_update event self).1 = Ok () ∧
     _attr_native_value (handle_status_update event self).2
       = Some (VStr (str_lower s))) ∧
  (∀ s, is_ascii s = true → event !! key d = Some (VStr s) →
     (handle_status_update event self).1 = Ok () ∧
     _attr_native_value (handle_status_update event self).2
       = Some (VStr (ascii_str_lower s))) ∧
  (∀ v, isinstance_str v = false → event !! key d = Some v →
     (handle_status_update event self).1 = Ok () ∧
     _attr_native_value (handle_status_update event self).2 = Some v).
Proof.
  intros Hd Hi <-.
  assert (value_fn (entity_description self) = lower_value_fn ∧
          (key (entity_description self) = ATTR_SLEEP_LABEL K ∨
           key (entity_description self) = ATTR_ACTIVITY_LABEL K))
    as [Hfn Hkey].
  { destruct Hi as [-> | ->]; injection Hd as <-; simpl; auto. }
  split_and!; [done| | |].
  - intros s Hs. rewrite (handle_status_update_present _ _ _ Hs), Hfn. done.
  - intros s Hascii Hs.
    rewrite (handle_status_update_present _ _ _ Hs), Hfn. simpl.
    by rewrite (str_lower_ascii s Hascii).
  - intros v Hv Hs. rewrite (handle_status_update_present _ _ _ Hs), Hfn.
    by destruct v.
Qed.

(** C9.  Every other description of the table keeps the default transform,
    the identity, so the handler stores the event's value as it is. *)
Theorem default_value_fn_identity i d :
  SENSOR_TYPES K !! i = Some d → i ≠ 8 → i ≠ 9 →
  (∀ v, value_fn d v = v) ∧
  (∀ self event v,
     entity_description self = d → event !! key d = Some v →
     (handle_status_update event self).1 = Ok () ∧
     _attr_native_value (handle_status_update event self).2 = Some v).
Proof.
  intros Hd H8 H9.
  assert (value_fn d = default_value_fn) as Hfn.
  { pose proof (SENSOR_TYPES_lookup _ _ Hd) as Hlt.
    do 8 (destruct i as [|i]; [by injection Hd as <-|]).
    destruct i as [|[|i]]; [done|done|lia]. }
  split.
  - intros v. by rewrite Hfn.
  - intros self event v <- Hv.
    rewrite (handle_status_update_present _ _ _ Hv), Hfn. done.
Qed.

(** *** Setup *)

(** The comprehension over any table of descriptions succeeds exactly when
    every construction of the product does, and lists the entities in the
    order of the product. *)
Lemma comprehension_Ok client items
    (ds : list TractiveSensorEntityDescription) (entities : list TractiveSensor) :
  mjoin <$> mapM (λ d, its ← py_iter (OTrackables items : obj);
                       mapM (λ item, TractiveSensor_init client item d) its) ds
    = Ok entities ↔
  Forall2 (λ e p, TractiveSensor_init client p.2 p.1 = Ok e)
          entities (list_prod ds items).
Proof.
  rewrite fmap_result_Ok. setoid_rewrite mapM_result_Ok.
  revert entities. induction ds as [|d ds IH]; intros entities.
  - split.
    + intros (rows & ->%Forall2_nil_inv_l & ->). constructor.
    + intros ->%Forall2_nil_inv_r. exists []. by split; [constructor|].
  - rewrite list_prod_cons. split.
    + intros (rows & (row & rows' & Hrow & Hrows & ->)%Forall2_cons_inv_l & ->).
      change (mapM (λ item, TractiveSensor_init client item d) items = Ok row)
        in Hrow.
      apply mapM_result_Ok in Hrow. apply Forall2_app.
      * apply Forall2_fmap_r, Forall2_flip.
        eapply Forall2_impl; [exact Hrow|done].
      * apply IH. by exists rows'.
    + intros (row & rest & Hrow & Hrest & ->)%Forall2_app_inv_r.
      apply IH in Hrest as (rows' & Hrows' & ->).
      apply Forall2_fmap_r, Forall2_flip in Hrow.
      exists (row :: rows'). split; [|done].
      constructor; [|done].
      change (mapM (λ item, TractiveSensor_init client item d) items = Ok row).
      by apply mapM_result_Ok.
Qed.

Lemma build_entities_Ok client items (entities : list TractiveSensor) :
  build_entities K client (OTrackables items) = Ok entities ↔
  Forall2 (λ e p, TractiveSensor_init client p.2 p.1 = Ok e)
          entities (list_prod (SENSOR_TYPES K) items).
Proof. apply comprehension_Ok. Qed.

(** Well-formed trackables make every construction, hence the whole
    comprehension, succeed. *)
Lemma build_entities_well_formed client items :
  Forall well_formed items →
  ∃ entities : list TractiveSensor,
    build_entities K client (OTrackables items) = Ok entities.
Proof.
  intros Hwf.
  destruct (Forall2_exists_l
              (λ (e : TractiveSensor) p, TractiveSensor_init client p.2 p.1 = Ok e)
              (list_prod (SENSOR_TYPES K) items)) as [entities Hent].
  - apply Forall_forall. intros p [_ Hp]%elem_of_list_prod.
    apply TractiveSensor_init_well_formed.
    by eapply (proj1 (Forall_forall _ _) Hwf).
  - exists entities. by apply build_entities_Ok.
Qed.

(** Setup on a storage that holds a client and a list of well-formed
    trackables: the callback receives the comprehension's list. *)
Lemma async_setup_entry_Ok {W} hass entry client items
    (async_add_entities : list TractiveSensor → W → W) (w : W) :
  entry_data K hass entry (CLIENT K) = Ok client →
  entry_data K hass entry (TRACKABLES K) = Ok (OTrackables items) →
  Forall well_formed items →
  ∃ entities,
    async_setup_entry K hass entry async_add_entities w
      = Ok (async_add_entities entities w) ∧
    Forall2 (λ e p, TractiveSensor_init client p.2 p.1 = Ok e)
            entities (list_prod (SENSOR_TYPES K) items).
Proof.
  intros Hc Ht Hwf.
  destruct (build_entities_well_formed client items Hwf) as [entities Hb].
  exists entities. split; [|by apply build_entities_Ok].
  unfold async_setup_entry. rewrite Hc. simpl. rewrite Ht. simpl.
  by rewrite Hb.
Qed.

(** C2.  For a list of M (well-formed) trackables, setup constructs N×M
    entities, N the length of [SENSOR_TYPES]: one per pair of the product
    of the table with the list, and hands that whole list to the
    add-entities callback. *)
Theorem setup_builds_cross_product {W} hass entry client items
    (async_add_entities : list TractiveSensor → W → W) (w : W) :
  entry_data K hass entry (CLIENT K) = Ok client →
  entry_data K hass entry (TRACKABLES K) = Ok (OTrackables items) →
  Forall well_formed items →
  ∃ entities,
    async_setup_entry K hass entry async_add_entities w
      = Ok (async_add_entities entities w) ∧
    length entities = length (SENSOR_TYPES K) * length items ∧
    Forall2 (λ e p, TractiveSensor_init client p.2 p.1 = Ok e)
            entities (list_prod (SENSOR_TYPES K) items).
Proof.
  intros Hc Ht Hwf.
  destruct (async_setup_entry_Ok hass entry client items async_add_entities w)
    as (entities & Hrun & Hent); [done..|].
  exists entities. split_and!; [done| |done].
  by rewrite (Forall2_length _ _ _ Hent), length_list_prod.
Qed.

(** C10.  The list is descriptor-major: with M trackables, the entity at
    index [i * M + j] is the one constructed from description [i] of the
    table and trackable [j] of the list. *)
Theorem setup_order_descriptor_major {W} hass entry client items
    (async_add_entities : list TractiveSensor → W → W) (w : W) i j d item :
  entry_data K hass entry (CLIENT K) = Ok client →
  entry_data K hass entry (TRACKABLES K) = Ok (OTrackables items) →
  Forall well_formed items →
  SENSOR_TYPES K !! i = Some d → items !! j = Some item →
  ∃ entities e,
    async_setup_entry K hass entry async_add_entities w
      = Ok (async_add_entities entities w) ∧
    entities !! (i * length items + j) = Some e ∧
    TractiveSensor_init client item d = Ok e.
Proof.
  intros Hc Ht Hwf Hd Hitem.
  destruct (async_setup_entry_Ok hass entry client items async_add_entities w)
    as (entities & Hrun & Hent); [done..|].
  pose proof (list_prod_lookup _ _ _ _ _ _ Hd Hitem) as Hp.
  destruct (Forall2_lookup_r _ _ _ _ _ Hent Hp) as (e & He & Hinit).
  by exists entities, e.
Qed.

(** *** Unique identifiers *)

(** Whatever list the comprehension returns, its unique identifiers are
    pairwise distinct under the three conditions on identifiers and keys. *)
Lemma build_entities_unique_ids client items (entities : list TractiveSensor) :
  build_entities K client (OTrackables items) = Ok entities →
  NoDup (trackable_id <$> items) →
  NoDup (key <$> SENSOR_TYPES K) →
  keys_unambiguous (key <$> SENSOR_TYPES K) = true →
  NoDup ((λ e, _attr_unique_id (entity e)) <$> entities).
Proof.
  intros Hb%build_entities_Ok Hids Hkeys Hsep.
  set (uid := λ p : TractiveSensorEntityDescription * Trackables,
         (λ t, t +:+ "_" +:+ key p.1) <$> trackable_id p.2).
  assert (Forall2 (λ e p, _attr_unique_id (entity e) = uid p ∧
                          is_Some (trackable_id p.2))
            entities (list_prod (SENSOR_TYPES K) items)) as Huid.
  { eapply Forall2_impl; [exact Hb|]. intros e [d item] Hinit. simpl in *.
    apply TractiveSensor_init_Ok_inv in Hinit as (sg & tid & _ & Htid & ->).
    unfold uid, trackable_id. simpl. rewrite Htid. simpl. eauto. }
  assert ((λ e : TractiveSensor, _attr_unique_id (entity e)) <$> entities
          = uid <$> list_prod (SENSOR_TYPES K) items) as ->.
  { clear -Huid. induction Huid as [|e p es ps [He _] _ IH]; [done|].
    rewrite !fmap_cons. by rewrite He, IH. }
  apply NoDup_fmap_2_strong.
  - intros p q Hp Hq Heq.
    assert (is_Some (trackable_id p.2)) as [t1 Ht1].
    { apply list_elem_of_lookup in Hp as [n Hn].
      by destruct (Forall2_lookup_r _ _ _ _ _ Huid Hn) as (? & _ & _ & ?). }
    assert (is_Some (trackable_id q.2)) as [t2 Ht2].
    { apply list_elem_of_lookup in Hq as [n Hn].
      by destruct (Forall2_lookup_r _ _ _ _ _ Huid Hn) as (? & _ & _ & ?). }
    apply elem_of_list_prod in Hp as [Hp1 Hp2].
    apply elem_of_list_prod in Hq as [Hq1 Hq2].
    unfold uid in Heq. rewrite Ht1, Ht2 in Heq. simpl in Heq.
    injection Heq as Heq.
    apply (unique_id_split (key <$> SENSOR_TYPES K)) in Heq as [-> Hk];
      [|done|by apply list_elem_of_fmap_2..].
    destruct p as [d1 i1], q as [d2 i2]; simpl in *. f_equal.
    + by apply (NoDup_fmap_inj_on key (SENSOR_TYPES K)).
    + apply (NoDup_fmap_inj_on trackable_id items); [done..|congruence].
  - apply NoDup_list_prod; by eapply NoDup_fmap_1.
Qed.

(** C3.  The unique identifier of a constructed entity is the trackable
    identifier, an underscore and the description's key.  Over the list
    setup builds, the identifiers are pairwise distinct when the trackable
    identifiers are, the keys of the table are, and no key of the table is
    another key behind an underscore (so that [tid_key] splits one way):
    this holds of any list the comprehension returns, and setup does return
    one, and passes it on, for well-formed trackables. *)
Theorem unique_ids_distinct :
  (∀ client item d e,
     TractiveSensor_init client item d = Ok e →
     ∃ tid, trackable item !! "_id" = Some tid ∧
       _attr_unique_id (entity e) = Some (py_format tid +:+ "_" +:+ key d)) ∧
  (∀ client items (entities : list TractiveSensor),
     build_entities K client (OTrackables items) = Ok entities →
     NoDup (trackable_id <$> items) →
     NoDup (key <$> SENSOR_TYPES K) →
     keys_unambiguous (key <$> SENSOR_TYPES K) = true →
     NoDup ((λ e, _attr_unique_id (entity e)) <$> entities)) ∧
  (∀ (W : Type) hass entry client items
     (async_add_entities : list TractiveSensor → W → W) (w : W),
     entry_data K hass entry (CLIENT K) = Ok client →
     entry_data K hass entry (TRACKABLES K) = Ok (OTrackables items) →
     Forall well_formed items →
     NoDup (trackable_id <$> items) →
     NoDup (key <$> SENSOR_TYPES K) →
     keys_unambiguous (key <$> SENSOR_TYPES K) = true →
     ∃ entities,
       async_setup_entry K hass entry async_add_entities w
         = Ok (async_add_entities entities w) ∧
       NoDup ((λ e, _attr_unique_id (entity e)) <$> entities)).
Proof.
  split_and!.
  - intros client item d e (sg & tid & _ & Htid & ->)%TractiveSensor_init_Ok_inv.
    by exists tid.
  - apply build_entities_unique_ids.
  - intros W hass entry client items add w Hc Ht Hwf Hids Hkeys Hsep.
    destruct (async_setup_entry_Ok hass entry client items add w)
      as (entities & Hrun & Hent); [done..|].
    exists entities. split; [done|].
    apply (build_entities_unique_ids client items); [|done..].
    by apply build_entities_Ok.
Qed.

(** *** Events and availability *)

Lemma dispatcher_send_own self event :
  dispatcher_send (_dispatcher_signal (entity self)) event self
    = handle_status_update event self.
Proof.
  unfold dispatcher_send, get_self, mbind, method_bind.
  by rewrite decide_True.
Qed.

Lemma dispatcher_send_other signal self event :
  signal ≠ _dispatcher_signal (entity self) →
  dispatcher_send signal event self = (Ok (), self).
Proof.
  intros Hne. unfold dispatcher_send, get_self, mbind, method_bind.
  by rewrite decide_False.
Qed.

(** Events published on other signals leave the entity as it is. *)
Lemma deliver_other (events : list (string * gmap string value)) self :
  Forall (λ ev, ev.1 ≠ _dispatcher_signal (entity self)) events →
  deliver events self = self.
Proof.
  induction 1 as [|[signal event] events Hne _ IH]; [done|].
  unfold deliver in *. simpl in *. by rewrite dispatcher_send_other.
Qed.

Lemma deliver_snoc (events : list (string * gmap string value)) signal event self :
  deliver (events ++ [(signal, event)]) self
    = (dispatcher_send signal event (deliver events self)).2.
Proof. unfold deliver. by rewrite foldl_snoc. Qed.

(** C6.  A constructed entity is unavailable, stays so while only events
    on other signals are published, and is available right after the
    handler has processed the first event on its own signal (an event that
    carries the description's key). *)
Theorem availability_after_first_event client item d e :
  TractiveSensor_init client item d = Ok e →
  _attr_available (entity e) = false ∧
  (∀ events,
     Forall (λ ev, ev.1 ≠ _dispatcher_signal (entity e)) events →
     _attr_available (entity (deliver events e)) = false) ∧
  (∀ events event v,
     Forall (λ ev, ev.1 ≠ _dispatcher_signal (entity e)) events →
     event !! key d = Some v →
     _attr_available
       (entity (deliver (events ++ [(_dispatcher_signal (entity e), event)]) e))
       = true).
Proof.
  intros (sg & tid & _ & _ & ->)%TractiveSensor_init_Ok_inv.
  split_and!; [done| |].
  - intros events Hev. by rewrite deliver_other.
  - intros events event v Hev Hv.
    rewrite deliver_snoc, deliver_other by done.
    rewrite dispatcher_send_own.
    by rewrite (handle_status_update_present _ _ v).
Qed.

(** C7.  The battery-level description heads the table; the event
    [{"battery_level": 42}] published on the hardware signal of the
    entity's tracker sets the state to [42] and the availability to
    [True]. *)
Theorem battery_level_example client item d e tracker_id :
  SENSOR_TYPES K !! 0 = Some d →
  TractiveSensor_init client item d = Ok e →
  tracker_details item !! "_id" = Some tracker_id →
  let signal :=
    TRACKER_HARDWARE_STATUS_UPDATED K +:+ "-" +:+ py_format tracker_id in
  let event : gmap string value := {[ "battery_level" := VInt 42 ]} in
  key d = "battery_level" ∧
  (dispatcher_send signal event e).1 = Ok () ∧
  _attr_native_value (dispatcher_send signal event e).2 = Some (VInt 42) ∧
  _attr_available (entity (dispatcher_send signal event e).2) = true.
Proof.
  intros [= <-] (sg & tid & Hsg & _ & ->)%TractiveSensor_init_Ok_inv Hid.
  unfold dispatcher_signal_of in Hsg. simpl in Hsg.
  rewrite (getitem_Some _ _ _ Hid) in Hsg. injection Hsg as <-.
  intros signal event. split; [done|].
  subst signal.
  match goal with |- context [dispatcher_send ?s event ?x] =>
    change (dispatcher_send s event x)
      with (dispatcher_send (_dispatcher_signal (entity x)) event x)
  end.
  rewrite dispatcher_send_own.
  by rewrite (handle_status_update_present _ _ (VInt 42)).
Qed.

End Properties.

(** ** The theorems at the sample configuration *)

Section SampleConfiguration.

(** The examples run with the ASCII instance of [str.lower]. *)
Local Existing Instance ascii_StrLower.

Lemma sample_items_well_formed : Forall well_formed sample_items.
Proof. repeat constructor; by eexists. Defined.

(** C5, as the spec states it, fails: the table does not have nine
    entries. *)
Lemma sensor_types_not_nine : length (SENSOR_TYPES sample_const) ≠ 9.
Proof. discriminate. Qed.

Lemma dispatcher_signal_by_scope_witness :
  dispatcher_signal_of (sample_item "pet_1" "HW0001")
      (description_at sample_const 0)
    = Ok "tractive_tracker_hardware_status_updated-HW0001" ∧
  dispatcher_signal_of (sample_item "pet_1" "HW0001")
      (description_at sample_const 2)
    = Ok "tractive_tracker_activity_updated-pet_1" ∧
  dispatcher_signal_of
      {| trackable := <[ "type" := VStr "pet" ]> {[ "_id" := VStr "pet_1" ]};
         tracker_details := {[ "_id" := VStr "HW0001" ]} |}
      (description_at sample_const 5)
    = dispatcher_signal_of (sample_item "pet_1" "HW0001")
        (description_at sample_const 2).
Proof.
  split_and!.
  - exact (proj1 (dispatcher_signal_by_scope (sample_item "pet_1" "HW0001")
                    (description_at sample_const 0))
             eq_refl (VStr "HW0001") eq_refl).
  - exact (proj1 (proj2 (dispatcher_signal_by_scope
                           (sample_item "pet_1" "HW0001")
                           (description_at sample_const 2)))
             eq_refl (VStr "pet_1") eq_refl).
  - apply (proj2 (proj2 (dispatcher_signal_by_scope
                           (sample_item "pet_1" "HW0001")
                           (description_at sample_const 2))));
      vm_compute; reflexivity.
Defined.

Lemma missing_key_raises_witness :
  handle_status_update ∅
      (sample_sensor 0 "tractive_tracker_hardware_status_updated-HW0001"
                     "pet_1_battery_level")
    = (Raise (KeyError "battery_level"),
       sample_sensor 0 "tractive_tracker_hardware_status_updated-HW0001"
                     "pet_1_battery_level") ∧
  TractiveSensor_init (OClient ())
      {| trackable := {[ "_id" := VStr "pet_1" ]}; tracker_details := ∅ |}
      (description_at sample_const 0)
    = Raise (KeyError "_id") ∧
  TractiveSensor_init (OClient ())
      {| trackable := ∅; tracker_details := {[ "_id" := VStr "HW0001" ]} |}
      (description_at sample_const 0)
    = Raise (KeyError "_id").
Proof.
  split_and!.
  - exact (proj1 (@missing_key_raises unit)
             (sample_sensor 0 "tractive_tracker_hardware_status_updated-HW0001"
                            "pet_1_battery_level") ∅ eq_refl).
  - exact (proj1 (proj2 (@missing_key_raises unit)) (OClient ())
             {| trackable := {[ "_id" := VStr "pet_1" ]};
                tracker_details := ∅ |}
             (description_at sample_const 0) eq_refl).
  - exact (proj2 (proj2 (@missing_key_raises unit)) (OClient ())
             {| trackable := ∅;
                tracker_details := {[ "_id" := VStr "HW0001" ]} |}
             (description_at sample_const 0) eq_refl).
Defined.

Lemma label_values_lowercased_witness :
  let self := sample_sensor 8 "tractive_tracker_wellness_updated-pet_1"
                            "pet_1_sleep_label" in
  ((handle_status_update {[ "sleep_label" := VStr "GOOD" ]} self).1 = Ok () ∧
   _attr_native_value
     (handle_status_update {[ "sleep_label" := VStr "GOOD" ]} self).2
     = Some (VStr (str_lower "GOOD"))) ∧
  ((handle_status_update {[ "sleep_label" := VStr "GOOD" ]} self).1 = Ok () ∧
   _attr_native_value
     (handle_status_update {[ "sleep_label" := VStr "GOOD" ]} self).2
     = Some (VStr "good")) ∧
  ((handle_status_update {[ "sleep_label" := VNone ]} self).1 = Ok () ∧
   _attr_native_value
     (handle_status_update {[ "sleep_label" := VNone ]} self).2
     = Some VNone).
Proof.
  intros self. split; [|split].
  - exact (proj1 (proj2 (label_values_lowercased sample_const 8
                           (description_at sample_const 8) self
                           {[ "sleep_label" := VStr "GOOD" ]}
                           eq_refl (or_introl eq_refl) eq_refl))
             "GOOD" eq_refl).
  - exact (proj1 (proj2 (proj2 (label_values_lowercased sample_const 8
                                  (description_at sample_const 8) self
                                  {[ "sleep_label" := VStr "GOOD" ]}
                                  eq_refl (or_introl eq_refl) eq_refl)))
             "GOOD" eq_refl eq_refl).
  - exact (proj2 (proj2 (proj2 (label_values_lowercased sample_const 8
                                  (description_at sample_const 8) self
                                  {[ "sleep_label" := VNone ]}
                                  eq_refl (or_introl eq_refl) eq_refl)))
             VNone eq_refl eq_refl).
Defined.

Lemma default_value_fn_identity_witness :
  let self := sample_sensor 4 "tractive_tracker_wellness_updated-pet_1"
                            "pet_1_calories" in
  value_fn (description_at sample_const 4) (VStr "MiXed") = VStr "MiXed" ∧
  (handle_status_update {[ "calories" := VInt 250 ]} self).1 = Ok () ∧
  _attr_native_value (handle_status_update {[ "calories" := VInt 250 ]} self).2
    = Some (VInt 250).
Proof.
  intros self.
  assert (4 ≠ 8) as H8 by discriminate.
  assert (4 ≠ 9) as H9 by discriminate.
  split.
  - exact (proj1 (@default_value_fn_identity unit _ sample_const 4
                    (description_at sample_const 4) eq_refl H8 H9)
             (VStr "MiXed")).
  - exact (proj2 (@default_value_fn_identity unit _ sample_const 4
                    (description_at sample_const 4) eq_refl H8 H9)
             self {[ "calories" := VInt 250 ]} (VInt 250) eq_refl eq_refl).
Defined.

Lemma setup_builds_cross_product_witness :
  ∃ entities,
    async_setup_entry sample_const sample_hass sample_entry
        sample_add_entities []
      = Ok (sample_add_entities entities []) ∧
    length entities = length (SENSOR_TYPES sample_const) * length sample_items ∧
    Forall2 (λ e p, TractiveSensor_init (OClient ()) p.2 p.1 = Ok e)
            entities (list_prod (SENSOR_TYPES sample_const) sample_items).
Proof.
  apply (setup_builds_cross_product sample_const sample_hass sample_entry
           (OClient ()) sample_items sample_add_entities []).
  - reflexivity.
  - reflexivity.
  - exact sample_items_well_formed.
Defined.

Lemma setup_order_descriptor_major_witness :
  ∃ entities e,
    async_setup_entry sample_const sample_hass sample_entry
        sample_add_entities []
      = Ok (sample_add_entities entities []) ∧
    entities !! (1 * length sample_items + 1) = Some e ∧
    TractiveSensor_init (OClient ()) (sample_item "pet_2" "HW0002")
        (description_at sample_const 1)
      = Ok e.
Proof.
  apply (setup_order_descriptor_major sample_const sample_hass sample_entry
           (OClient ()) sample_items sample_add_entities [] 1 1
           (description_at sample_const 1) (sample_item "pet_2" "HW0002")).
  - reflexivity.
  - reflexivity.
  - exact sample_items_well_formed.
  - reflexivity.
  - reflexivity.
Defined.

Lemma unique_ids_distinct_witness :
  (∃ tid, trackable (sample_item "pet_1" "HW0001") !! "_id" = Some tid ∧
     _attr_unique_id
         (entity (sample_sensor 0
                    "tractive_tracker_hardware_status_updated-HW0001"
                    "pet_1_battery_level"))
       = Some (py_format tid +:+ "_" +:+ key (description_at sample_const 0))) ∧
  NoDup (trackable_id <$> sample_items) ∧
  NoDup (key <$> SENSOR_TYPES sample_const) ∧
  keys_unambiguous (key <$> SENSOR_TYPES sample_const) = true ∧
  ∃ entities,
    async_setup_entry sample_const sample_hass sample_entry
        sample_add_entities []
      = Ok (sample_add_entities entities []) ∧
    NoDup ((λ e, _attr_unique_id (entity e)) <$> entities).
Proof.
  assert (NoDup (trackable_id <$> sample_items)) as Hids.
  { apply (bool_decide_unpack _). vm_compute. exact I. }
  assert (NoDup (key <$> SENSOR_TYPES sample_const)) as Hkeys.
  { apply (bool_decide_unpack _). vm_compute. exact I. }
  assert (keys_unambiguous (key <$> SENSOR_TYPES sample_const) = true) as Hsep.
  { vm_compute. reflexivity. }
  split_and!; [|exact Hids|exact Hkeys|exact Hsep|].
  - exact (proj1 (@unique_ids_distinct unit _ sample_const) (OClient ())
             (sample_item "pet_1" "HW0001") (description_at sample_const 0)
             (sample_sensor 0 "tractive_tracker_hardware_status_updated-HW0001"
                            "pet_1_battery_level") eq_refl).
  - exact (proj2 (proj2 (@unique_ids_distinct unit _ sample_const))
             (list (@TractiveSensor unit)) sample_hass sample_entry
             (OClient ()) sample_items sample_add_entities []
             eq_refl eq_refl sample_items_well_formed Hids Hkeys Hsep).
Defined.

Lemma availability_after_first_event_witness :
  let e := sample_sensor 0 "tractive_tracker_hardware_status_updated-HW0001"
                           "pet_1_battery_level" in
  let other : string * gmap string value :=
    ("tractive_tracker_hardware_status_updated-HW0002",
     {[ "battery_level" := VInt 7 ]}) in
  _attr_available (entity e) = false ∧
  _attr_available (entity (deliver [other; other] e)) = false ∧
  _attr_available
    (entity (deliver ([other] ++
                      [("tractive_tracker_hardware_status_updated-HW0001",
                        {[ "battery_level" := VInt 42 ]})]) e))
    = true.
Proof.
  intros e other.
  pose proof (@availability_after_first_event unit (OClient ())
                (sample_item "pet_1" "HW0001")
                (description_at sample_const 0) e eq_refl) as (H0 & H1 & H2).
  assert (other.1 ≠ _dispatcher_signal (entity e)) as Hne by discriminate.
  split_and!.
  - exact H0.
  - apply H1. by repeat constructor.
  - apply (H2 [other] {[ "battery_level" := VInt 42 ]} (VInt 42)).
    + by repeat constructor.
    + reflexivity.
Defined.

Lemma battery_level_example_witness :
  let e := sample_sensor 0 "tractive_tracker_hardware_status_updated-HW0001"
                           "pet_1_battery_level" in
  let signal := "tractive_tracker_hardware_status_updated-HW0001" in
  let event : gmap string value := {[ "battery_level" := VInt 42 ]} in
  (dispatcher_send signal event e).1 = Ok () ∧
  _attr_native_value (dispatcher_send signal event e).2 = Some (VInt 42) ∧
  _attr_available (entity (dispatcher_send signal event e).2) = true.
Proof.
  intros e signal event.
  exact (proj2 (@battery_level_example unit _ sample_const (OClient ())
                  (sample_item "pet_1" "HW0001")
                  (description_at sample_const 0) e (VStr "HW0001")
                  eq_refl eq_refl eq_refl)).
Defined.

End SampleConfiguration.

(** * Further properties of the module *)

(** [mapM] raises as soon as one call does; when every call can raise
    only [e0], that is what it raises. *)
Lemma mapM_result_Raise {A B} (f : A → result B) (l : list A) (e0 : exn) :
  (∀ x e, x ∈ l → f x = Raise e → e = e0) →
  Exists (λ x, ∃ e, f x = Raise e) l →
  mapM f l = Raise e0.
Proof.
  induction l as [|x l IH]; intros Hexn Hex; [by apply Exists_nil in Hex|].
  change (mapM f (x :: l))
    with (f x ≫= λ y, mapM f l ≫= λ k, mret (y :: k)).
  destruct (f x) as [y|e] eqn:Hx.
  - apply Exists_cons in Hex as [[e He]|Hex]; [congruence|].
    rewrite IH; [done| |done].
    intros x' e' Hx'. apply Hexn. by right.
  - simpl. f_equal. apply (Hexn x); [by left|done].
Qed.

Lemma mapM_result_head_Raise {A B} (f : A → result B) x (l : list A) e :
  f x = Raise e → mapM f (x :: l) = Raise e.
Proof.
  intros Hx.
  change (mapM f (x :: l))
    with (f x ≫= λ y, mapM f l ≫= λ k, mret (y :: k)).
  by rewrite Hx.
Qed.

Section MoreProperties.

Context {TractiveClient : Type}.
Context {py_str : StrLower}.
Context (K : TractiveConst).

Local Abbreviation obj := (@obj TractiveClient).
Local Abbreviation TractiveSensor := (@TractiveSensor TractiveClient).

Implicit Types (client : obj) (item : Trackables).
Implicit Types (d description : TractiveSensorEntityDescription).
Implicit Types (self e : TractiveSensor) (event : gmap string value).

(** The only exception the constructor raises is [KeyError('_id')]. *)
Lemma TractiveSensor_init_Raise_inv client item d ex :
  TractiveSensor_init client item d = Raise ex → ex = KeyError "_id".
Proof.
  unfold TractiveSensor_init, dispatcher_signal_of, getitem.
  destruct (hardware_sensor d);
    repeat (case_match; simpl; try discriminate); by intros [= <-].
Qed.

(** For a hardware-scoped description the constructor needs both
    identifiers. *)
Lemma TractiveSensor_init_hardware_Ok client item d e :
  hardware_sensor d = true →
  TractiveSensor_init client item d = Ok e → well_formed item.
Proof.
  intros Hhw (sg & tid & Hsg & Htid & _)%TractiveSensor_init_Ok_inv.
  split; [by eexists|].
  unfold dispatcher_signal_of in Hsg. rewrite Hhw in Hsg.
  unfold getitem in Hsg. destruct (tracker_details item !! "_id"); [by eexists|].
  discriminate.
Qed.

(** One malformed trackable makes the comprehension raise: the first
    description of the table is hardware-scoped, so its row already needs
    both identifiers of every trackable. *)
Lemma build_entities_malformed client items :
  ¬ Forall well_formed items →
  build_entities K client (OTrackables items) = Raise (KeyError "_id").
Proof.
  intros Hex. apply not_Forall_Exists in Hex; [|apply _].
  unfold build_entities.
  destruct (SENSOR_TYPES K) as [|d0 ds] eqn:Htable; [discriminate|].
  assert (hardware_sensor d0 = true) as Hhw by by injection Htable as <- _.
  assert (mapM (λ item, TractiveSensor_init client item d0) items
          = Raise (KeyError "_id")) as Hrow.
  { apply mapM_result_Raise.
    - intros item ex _. apply TractiveSensor_init_Raise_inv.
    - eapply Exists_impl; [exact Hex|]. intros item Hbad. simpl in Hbad.
      destruct (TractiveSensor_init client item d0) as [e|ex] eqn:Hinit;
        [|by eexists].
      destruct Hbad. by eapply TractiveSensor_init_hardware_Ok. }
  rewrite (mapM_result_head_Raise _ d0 ds (KeyError "_id")); [done|].
  exact Hrow.
Qed.

(** X1.  Setup is all or nothing.  On a storage that holds a client and a
    list of trackables, [async_setup_entry] returns normally exactly when
    every trackable carries both ['_id'] fields; otherwise it raises
    [KeyError('_id')] and the add-entities callback is never called, no
    matter how many of the trackables are well formed. *)
Theorem setup_all_or_nothing {W} hass entry client items
    (async_add_entities : list TractiveSensor → W → W) (w : W) :
  entry_data K hass entry (CLIENT K) = Ok client →
  entry_data K hass entry (TRACKABLES K) = Ok (OTrackables items) →
  ((∃ w', async_setup_entry K hass entry async_add_entities w = Ok w')
     ↔ Forall well_formed items) ∧
  (¬ Forall well_formed items →
   async_setup_entry K hass entry async_add_entities w
     = Raise (KeyError "_id")).
Proof.
  intros Hc Ht.
  assert (¬ Forall well_formed items →
          async_setup_entry K hass entry async_add_entities w
            = Raise (KeyError "_id")) as Hbad.
  { intros Hnwf. unfold async_setup_entry. rewrite Hc. simpl. rewrite Ht. simpl.
    by rewrite (build_entities_malformed client items Hnwf). }
  split; [split|done].
  - intros [w' Hrun]. destruct (decide (Forall well_formed items)) as [|Hnwf];
      [done|]. rewrite (Hbad Hnwf) in Hrun. discriminate.
  - intros Hwf.
    destruct (async_setup_entry_Ok K hass entry client items
                async_add_entities w Hc Ht Hwf) as (entities & Hrun & _).
    eauto.
Qed.

(** X2.  Setup on a storage that lacks the domain, the entry, the client
    or the trackables raises [KeyError] with the missing key, in this order
    of precedence, before anything is constructed. *)
Theorem setup_storage_missing {W} hass entry
    (async_add_entities : list TractiveSensor → W → W) (w : W) :
  (data hass !! DOMAIN K = None →
   async_setup_entry K hass entry async_add_entities w
     = Raise (KeyError (DOMAIN K))) ∧
  (∀ by_domain,
     data hass !! DOMAIN K = Some by_domain →
     by_domain !! entry_id entry = None →
     async_setup_entry K hass entry async_add_entities w
       = Raise (KeyError (entry_id entry))) ∧
  (∀ by_domain by_entry,
     data hass !! DOMAIN K = Some by_domain →
     by_domain !! entry_id entry = Some by_entry →
     by_entry !! CLIENT K = None →
     async_setup_entry K hass entry async_add_entities w
       = Raise (KeyError (CLIENT K))) ∧
  (∀ by_domain by_entry,
     data hass !! DOMAIN K = Some by_domain →
     by_domain !! entry_id entry = Some by_entry →
     is_Some (by_entry !! CLIENT K) →
     by_entry !! TRACKABLES K = None →
     async_setup_entry K hass entry async_add_entities w
       = Raise (KeyError (TRACKABLES K))).
Proof.
  unfold async_setup_entry, entry_data. split_and!.
  - intros Hd. by rewrite (getitem_None _ _ Hd).
  - intros by_domain Hd He.
    rewrite (getitem_Some _ _ _ Hd). simpl. by rewrite (getitem_None _ _ He).
  - intros by_domain by_entry Hd He Hc.
    rewrite (getitem_Some _ _ _ Hd). simpl.
    rewrite (getitem_Some _ _ _ He). simpl. by rewrite (getitem_None _ _ Hc).
  - intros by_domain by_entry Hd He [c Hc] Ht.
    rewrite (getitem_Some _ _ _ Hd). simpl.
    rewrite (getitem_Some _ _ _ He). simpl.
    rewrite (getitem_Some _ _ _ Hc). simpl. by rewrite (getitem_None _ _ Ht).
Qed.

(** *** What setup hands over *)

(** X3.  Every entity setup hands to the callback starts unavailable and
    without a native value, carries a description of the table and a
    unique identifier, and listens on a signal that is its description's
    prefix, a hyphen and an identifier. *)
Theorem setup_entities_initial_state {W} hass entry client items
    (async_add_entities : list TractiveSensor → W → W) (w : W) :
  entry_data K hass entry (CLIENT K) = Ok client →
  entry_data K hass entry (TRACKABLES K) = Ok (OTrackables items) →
  Forall well_formed items →
  ∃ entities,
    async_setup_entry K hass entry async_add_entities w
      = Ok (async_add_entities entities w) ∧
    Forall (λ e,
              _attr_available (entity e) = false ∧
              _attr_native_value e = None ∧
              entity_description e ∈ SENSOR_TYPES K ∧
              is_Some (_attr_unique_id (entity e)) ∧
              ∃ id, _dispatcher_signal (entity e)
                      = signal_prefix (entity_description e) +:+ "-" +:+ id)
           entities.
Proof.
  intros Hc Ht Hwf.
  destruct (async_setup_entry_Ok K hass entry client items
              async_add_entities w Hc Ht Hwf) as (entities & Hrun & Hent).
  exists entities. split; [done|].
  apply Forall_forall. intros e [n Hn]%list_elem_of_lookup.
  destruct (Forall2_lookup_l _ _ _ _ _ Hent Hn) as ([d item] & Hp & Hinit).
  apply list_elem_of_lookup_2, elem_of_list_prod in Hp as [Hd _].
  simpl in *.
  apply TractiveSensor_init_Ok_inv in Hinit as (sg & tid & Hsg & _ & ->).
  simpl. split_and!; [done|done|done|by eexists|].
  unfold dispatcher_signal_of in Hsg.
  destruct (hardware_sensor d);
    [destruct (getitem (tracker_details item) "_id") as [id|]
    |destruct (getitem (trackable item) "_id") as [id|]];
    simpl in Hsg; try discriminate; injection Hsg as <-; by eexists.
Qed.

(** The unique identifiers of what the comprehension returns, as a
    function of the pairs of the product. *)
Lemma build_entities_unique_ids_eq client items (entities : list TractiveSensor) :
  build_entities K client (OTrackables items) = Ok entities →
  unique_ids entities
    = (λ p : TractiveSensorEntityDescription * Trackables,
         (λ t, t +:+ "_" +:+ key p.1) <$> trackable_id p.2)
      <$> list_prod (SENSOR_TYPES K) items.
Proof.
  intros Hb%build_entities_Ok. unfold unique_ids.
  induction Hb as [|e [d item] es ps Hinit _ IH]; [done|].
  rewrite !fmap_cons, IH. f_equal. simpl in *.
  apply TractiveSensor_init_Ok_inv in Hinit as (sg & tid & _ & Htid & ->).
  unfold trackable_id. by rewrite Htid.
Qed.

(** X4.  Distinct trackable identifiers are also necessary: when the
    unique identifiers of the list setup builds are pairwise distinct, so
    are the trackable identifiers.  Two trackables with the same identifier
    always yield clashing unique identifiers. *)
Theorem unique_ids_need_distinct_trackables client items
    (entities : list TractiveSensor) :
  build_entities K client (OTrackables items) = Ok entities →
  NoDup (unique_ids entities) →
  NoDup (trackable_id <$> items).
Proof.
  intros Hb Hnd. rewrite (build_entities_unique_ids_eq _ _ _ Hb) in Hnd.
  destruct (SENSOR_TYPES K) as [|d0 ds] eqn:Htable; [discriminate|].
  rewrite list_prod_cons, fmap_app in Hnd.
  apply NoDup_app in Hnd as (Hrow & _ & _).
  rewrite <-list_fmap_compose in Hrow.
  change (NoDup ((fmap (λ t, t +:+ "_" +:+ key d0) ∘ trackable_id) <$> items))
    in Hrow.
  rewrite list_fmap_compose in Hrow. by apply NoDup_fmap_1 in Hrow.
Qed.

(** *** Runs of events *)

(** One published event: what it cannot change. *)
Lemma dispatcher_send_frame signal event self :
  let self' := (dispatcher_send signal event self).2 in
  entity_description self' = entity_description self ∧
  _dispatcher_signal (entity self') = _dispatcher_signal (entity self) ∧
  _attr_unique_id (entity self') = _attr_unique_id (entity self) ∧
  (_attr_available (entity self) = true →
   _attr_available (entity self') = true) ∧
  ha_state_writes (entity self) ≤ ha_state_writes (entity self').
Proof.
  destruct (decide (signal = _dispatcher_signal (entity self))) as [->|Hne].
  - rewrite dispatcher_send_own.
    destruct (event !! key (entity_description self)) as [v|] eqn:Hv.
    + rewrite (handle_status_update_present _ _ _ Hv). simpl.
      split_and!; auto with lia.
    + rewrite (handle_status_update_absent _ _ Hv). simpl.
      split_and!; auto with lia.
  - rewrite (dispatcher_send_other _ _ _ Hne). simpl.
    split_and!; auto with lia.
Qed.

Lemma deliver_cons signal event (events : list (string * gmap string value)) self :
  deliver ((signal, event) :: events) self
    = deliver events (dispatcher_send signal event self).2.
Proof. reflexivity. Qed.

Lemma deliver_frame (events : list (string * gmap string value)) self :
  entity_description (deliver events self) = entity_description self ∧
  _dispatcher_signal (entity (deliver events self))
    = _dispatcher_signal (entity self) ∧
  _attr_unique_id (entity (deliver events self))
    = _attr_unique_id (entity self) ∧
  (_attr_available (entity self) = true →
   _attr_available (entity (deliver events self)) = true) ∧
  ha_state_writes (entity self) ≤ ha_state_writes (entity (deliver events self)).
Proof.
  revert self. induction events as [|[signal event] events IH]; intros self.
  - unfold deliver. simpl. split_and!; auto.
  - rewrite deliver_cons.
    destruct (dispatcher_send_frame signal event self) as (Hd & Hs & Hu & Ha & Hw).
    destruct (IH (dispatcher_send signal event self).2)
      as (Hd' & Hs' & Hu' & Ha' & Hw').
    split_and!; [congruence..|auto|lia].
Qed.

(** X5.  No run of published events, handled or not, changes an entity's
    description, the signal it listens on or its unique identifier. *)
Theorem deliver_preserves_identity
    (events : list (string * gmap string value)) self :
  entity_description (deliver events self) = entity_description self ∧
  _dispatcher_signal (entity (deliver events self))
    = _dispatcher_signal (entity self) ∧
  _attr_unique_id (entity (deliver events self))
    = _attr_unique_id (entity self).
Proof.
  destruct (deliver_frame events self) as (Hd & Hs & Hu & _). by split_and!.
Qed.

(** X6.  The last update wins.  Whatever was published before, after an
    event on the entity's own signal that carries the description's key the
    native value is the transform of that event's value: the handler
    overwrites, it never merges with the previous state. *)
Theorem last_update_wins (events : list (string * gmap string value))
    self event v :
  event !! key (entity_description self) = Some v →
  _attr_native_value
    (deliver (events ++ [(_dispatcher_signal (entity self), event)]) self)
    = Some (value_fn (entity_description self) v).
Proof.
  intros Hv. rewrite deliver_snoc.
  destruct (deliver_frame events self) as (Hd & Hs & _).
  rewrite <-Hs, dispatcher_send_own.
  rewrite <-Hd in Hv. rewrite (handle_status_update_present _ _ _ Hv).
  simpl. by rewrite Hd.
Qed.

(** X7.  A run in which every event is on another signal or lacks the
    description's key leaves the entity exactly as it was: the failed
    lookups store nothing and schedule no refresh. *)
Theorem deliver_unhandled_unchanged
    (events : list (string * gmap string value)) self :
  Forall (λ ev, ev.1 ≠ _dispatcher_signal (entity self) ∨
                ev.2 !! key (entity_description self) = None) events →
  deliver events self = self.
Proof.
  induction 1 as [|[signal event] events Hev _ IH]; [done|].
  rewrite deliver_cons. simpl in Hev.
  destruct (decide (signal = _dispatcher_signal (entity self))) as [->|Hne].
  - destruct Hev as [Hne|Hnone]; [done|].
    by rewrite dispatcher_send_own, (handle_status_update_absent _ _ Hnone).
  - by rewrite (dispatcher_send_other _ _ _ Hne).
Qed.

(** *** The table, entry by entry *)

Ltac table_cases H :=
  unfold SENSOR_TYPES in H;
  repeat (apply elem_of_cons in H as [->|H]);
  [..|by apply elem_of_nil in H].

(** X8.  The table is consistent about scope and about enumerations.  A
    hardware-scoped description listens on the hardware-status prefix and
    is diagnostic; any other listens on the activity or the wellness
    prefix.  A description declares options exactly when its device class
    is [ENUM], and then it has neither a unit nor a state class. *)
Theorem sensor_types_consistent d :
  d ∈ SENSOR_TYPES K →
  (hardware_sensor d = true →
   signal_prefix d = TRACKER_HARDWARE_STATUS_UPDATED K ∧
   entity_category d = Some DIAGNOSTIC) ∧
  (hardware_sensor d = false →
   signal_prefix d = TRACKER_ACTIVITY_STATUS_UPDATED K ∨
   signal_prefix d = TRACKER_WELLNESS_STATUS_UPDATED K) ∧
  (device_class d = Some ENUM ↔ is_Some (options d)) ∧
  (is_Some (options d) →
   native_unit_of_measurement d = None ∧ state_class d = None).
Proof.
  intros Hd. table_cases Hd; simpl;
    (split_and!;
     [ intros; by (done || split)
     | intros; by (done || auto)
     | split; intros H; by (done || eexists || destruct H)
     | intros H; by (split || destruct H) ]).
Qed.

(** X9.  Every transform of the table maps strings to strings, leaves any
    other value as it is, and leaves each option the description declares
    as it is; on ASCII text and on values that are not strings it is
    idempotent.  So every declared option can be a stored state, and a
    stored ASCII state is stable under the transform. *)
Theorem sensor_types_value_fn d :
  d ∈ SENSOR_TYPES K →
  (∀ v, (∀ s, v = VStr s → is_ascii s = true) →
     value_fn d (value_fn d v) = value_fn d v) ∧
  (∀ v, isinstance_str (value_fn d v) = isinstance_str v) ∧
  (∀ v, isinstance_str v = false → value_fn d v = v) ∧
  (∀ opts o, options d = Some opts → o ∈ opts → value_fn d (VStr o) = VStr o).
Proof.
  intros Hd.
  assert (value_fn d = default_value_fn ∨
          value_fn d = lower_value_fn ∧ options d = Some ["ok"; "good"])
    as [Hfn|[Hfn Hopts]].
  { table_cases Hd; simpl; auto. }
  - rewrite Hfn. by split_and!.
  - rewrite Hfn, Hopts. split_and!.
    + intros [| | |s] Hascii; simpl; [done..|].
      by rewrite (str_lower_ascii_idemp s (Hascii s eq_refl)).
    + by intros [| | |s].
    + by intros [| | |s].
    + intros opts o [= <-] Ho. simpl.
      repeat (apply elem_of_cons in Ho as [->|Ho]);
        [by rewrite str_lower_ascii..|].
      by apply elem_of_nil in Ho.
Qed.

(** *** Signals tell trackables apart *)

Lemma string_app_inj_l (p a b : string) : p +:+ a = p +:+ b → a = b.
Proof.
  induction p as [|c p IH]; str_simpl; [done|].
  intros Heq. injection Heq as Heq. by apply IH.
Qed.

Lemma dispatcher_signal_of_Ok_iff item d s :
  dispatcher_signal_of item d = Ok s ↔
  ∃ id, selected_id item d = Some id ∧ s = signal_prefix d +:+ "-" +:+ id.
Proof.
  unfold dispatcher_signal_of, selected_id, getitem.
  destruct (hardware_sensor d);
    [destruct (tracker_details item !! "_id") as [v|]
    |destruct (trackable item !! "_id") as [v|]]; simpl; split;
    try (intros [= <-]; by eexists);
    try (intros (id & [= <-] & ->); done);
    try discriminate;
    by intros (id & [=] & _).
Qed.

(** X10.  Signals tell trackables apart.  For descriptions with the same
    prefix, the signal names of two trackables coincide exactly when the
    identifiers the descriptions select from them are written the same: an
    update published for one tracker or pet cannot reach the entity of
    another. *)
Theorem dispatcher_signal_separates item1 item2 d1 d2 s1 s2 :
  signal_prefix d1 = signal_prefix d2 →
  dispatcher_signal_of item1 d1 = Ok s1 →
  dispatcher_signal_of item2 d2 = Ok s2 →
  s1 = s2 ↔ selected_id item1 d1 = selected_id item2 d2.
Proof.
  intros Hp (id1 & Hid1 & ->)%dispatcher_signal_of_Ok_iff
            (id2 & Hid2 & ->)%dispatcher_signal_of_Ok_iff.
  rewrite Hid1, Hid2, Hp. split.
  - intros Heq. apply string_app_inj_l in Heq.
    apply (string_app_inj_l "-") in Heq. by rewrite Heq.
  - by intros [= ->].
Qed.

End MoreProperties.

(** ** The further properties at the sample configuration *)

Section MoreSamples.

Local Existing Instance ascii_StrLower.

Lemma sample_bad_items_malformed : ¬ Forall well_formed sample_bad_items.
Proof.
  intros Hwf. apply Forall_cons in Hwf as [_ Hwf].
  apply Forall_cons in Hwf as [[_ [v Hv]] _]. discriminate.
Defined.

Lemma setup_all_or_nothing_witness :
  (∃ w', async_setup_entry sample_const sample_hass sample_entry
           sample_add_entities [] = Ok w') ∧
  async_setup_entry sample_const sample_bad_hass sample_entry
      sample_add_entities []
    = Raise (KeyError "_id").
Proof.
  split.
  - apply (proj1 (setup_all_or_nothing sample_const sample_hass sample_entry
                    (OClient ()) sample_items sample_add_entities []
                    eq_refl eq_refl)).
    exact sample_items_well_formed.
  - apply (proj2 (setup_all_or_nothing sample_const sample_bad_hass
                    sample_entry (OClient ()) sample_bad_items
                    sample_add_entities [] eq_refl eq_refl)).
    exact sample_bad_items_malformed.
Defined.

Lemma setup_storage_missing_witness :
  async_setup_entry sample_const {| data := ∅ |} sample_entry
      sample_add_entities []
    = Raise (KeyError "tractive") ∧
  async_setup_entry sample_const sample_unset_hass sample_entry
      sample_add_entities []
    = Raise (KeyError "entry-1") ∧
  async_setup_entry sample_const
      {| data := {[ "tractive" :=
           {[ "entry-1" := {[ "trackables" := OTrackables sample_items ]} ]} ]} |}
      sample_entry sample_add_entities []
    = Raise (KeyError "client") ∧
  async_setup_entry sample_const
      {| data := {[ "tractive" :=
           {[ "entry-1" := {[ "client" := OClient () ]} ]} ]} |}
      sample_entry sample_add_entities []
    = Raise (KeyError "trackables").
Proof.
  split_and!.
  - apply (proj1 (setup_storage_missing sample_const {| data := ∅ |}
                    sample_entry sample_add_entities [])).
    reflexivity.
  - apply (proj1 (proj2 (setup_storage_missing sample_const sample_unset_hass
                           sample_entry sample_add_entities [])) ∅);
      reflexivity.
  - apply (proj1 (proj2 (proj2 (setup_storage_missing sample_const
             {| data := {[ "tractive" :=
                  {[ "entry-1" :=
                       {[ "trackables" := OTrackables sample_items ]} ]} ]} |}
             sample_entry sample_add_entities [])))
             {[ "entry-1" := {[ "trackables" := OTrackables sample_items ]} ]}
             {[ "trackables" := OTrackables sample_items ]});
      reflexivity.
  - apply (proj2 (proj2 (proj2 (setup_storage_missing sample_const
             {| data := {[ "tractive" :=
                  {[ "entry-1" := {[ "client" := OClient () ]} ]} ]} |}
             sample_entry sample_add_entities [])))
             {[ "entry-1" := {[ "client" := OClient () ]} ]}
             {[ "client" := OClient () ]});
      [reflexivity|reflexivity|by eexists|reflexivity].
Defined.

Lemma setup_entities_initial_state_witness :
  ∃ entities,
    async_setup_entry sample_const sample_hass sample_entry
        sample_add_entities []
      = Ok (sample_add_entities entities []) ∧
    Forall (λ e,
              _attr_available (entity e) = false ∧
              _attr_native_value e = None ∧
              entity_description e ∈ SENSOR_TYPES sample_const ∧
              is_Some (_attr_unique_id (entity e)) ∧
              ∃ id, _dispatcher_signal (entity e)
                      = signal_prefix (entity_description e) +:+ "-" +:+ id)
           entities.
Proof.
  apply (setup_entities_initial_state sample_const sample_hass sample_entry
           (OClient ()) sample_items sample_add_entities []).
  - reflexivity.
  - reflexivity.
  - exact sample_items_well_formed.
Defined.

Lemma unique_ids_need_distinct_trackables_witness :
  ∃ entities : list (@TractiveSensor unit),
    build_entities sample_const (OClient ()) (OTrackables sample_items)
      = Ok entities ∧
    NoDup (unique_ids entities) ∧
    NoDup (trackable_id <$> sample_items).
Proof.
  destruct (build_entities_well_formed sample_const (OClient ()) sample_items
              sample_items_well_formed) as [entities Hb].
  assert (NoDup (unique_ids entities)) as Hnd.
  { apply (build_entities_unique_ids sample_const (OClient ()) sample_items);
      [exact Hb|apply (bool_decide_unpack _); vm_compute; exact I
      |apply (bool_decide_unpack _); vm_compute; exact I
      |vm_compute; reflexivity]. }
  exists entities. split_and!; [exact Hb|exact Hnd|].
  exact (unique_ids_need_distinct_trackables sample_const (OClient ())
           sample_items entities Hb Hnd).
Defined.

Lemma last_update_wins_witness :
  let self := sample_sensor 0 "tractive_tracker_hardware_status_updated-HW0001"
                              "pet_1_battery_level" in
  _attr_native_value
    (deliver ([ ("tractive_tracker_hardware_status_updated-HW0001",
                 {[ "battery_level" := VInt 7 ]});
                ("tractive_tracker_hardware_status_updated-HW0002",
                 {[ "battery_level" := VInt 99 ]}) ]
              ++ [ ("tractive_tracker_hardware_status_updated-HW0001",
                    {[ "battery_level" := VInt 42 ]}) ]) self)
    = Some (VInt 42).
Proof.
  intros self.
  exact (last_update_wins
           [ ("tractive_tracker_hardware_status_updated-HW0001",
              {[ "battery_level" := VInt 7 ]});
             ("tractive_tracker_hardware_status_updated-HW0002",
              {[ "battery_level" := VInt 99 ]}) ]
           self {[ "battery_level" := VInt 42 ]} (VInt 42) eq_refl).
Defined.

Lemma deliver_unhandled_unchanged_witness :
  let self := sample_sensor 0 "tractive_tracker_hardware_status_updated-HW0001"
                              "pet_1_battery_level" in
  deliver [ ("tractive_tracker_hardware_status_updated-HW0002",
             {[ "battery_level" := VInt 99 ]});
            ("tractive_tracker_hardware_status_updated-HW0001",
             {[ "tracker_state" := VStr "OPERATIONAL" ]}) ] self
    = self.
Proof.
  intros self. apply deliver_unhandled_unchanged.
  apply Forall_cons. split; [left; discriminate|].
  apply Forall_cons. split; [right; reflexivity|].
  constructor.
Defined.

Lemma sensor_types_consistent_witness :
  (signal_prefix (description_at sample_const 1)
     = "tractive_tracker_hardware_status_updated" ∧
   entity_category (description_at sample_const 1) = Some DIAGNOSTIC) ∧
  (device_class (description_at sample_const 1) = Some ENUM
     ↔ is_Some (options (description_at sample_const 1))).
Proof.
  assert (description_at sample_const 1 ∈ SENSOR_TYPES sample_const) as Hd.
  { apply (list_elem_of_lookup_2 _ 1). reflexivity. }
  destruct (sensor_types_consistent sample_const
              (description_at sample_const 1) Hd) as (Hhw & _ & Henum & _).
  split; [exact (Hhw eq_refl)|exact Henum].
Defined.

Lemma sensor_types_value_fn_witness :
  value_fn (description_at sample_const 9)
      (value_fn (description_at sample_const 9) (VStr "Good"))
    = value_fn (description_at sample_const 9) (VStr "Good") ∧
  value_fn (description_at sample_const 9) (VStr "good") = VStr "good".
Proof.
  assert (description_at sample_const 9 ∈ SENSOR_TYPES sample_const) as Hd.
  { apply (list_elem_of_lookup_2 _ 9). reflexivity. }
  destruct (sensor_types_value_fn sample_const
              (description_at sample_const 9) Hd) as (Hidem & _ & _ & Hopt).
  split.
  - apply (Hidem (VStr "Good")). intros s Hs. injection Hs as <-. reflexivity.
  - apply (Hopt ["ok"; "good"] "good"); [reflexivity|].
    apply list_elem_of_In. right. left. reflexivity.
Defined.

Lemma dispatcher_signal_separates_witness :
  "tractive_tracker_wellness_updated-pet_1"
    = "tractive_tracker_wellness_updated-pet_2"
  ↔ selected_id (sample_item "pet_1" "HW0001") (description_at sample_const 3)
    = selected_id (sample_item "pet_2" "HW0002") (description_at sample_const 4).
Proof.
  exact (dispatcher_signal_separates
           (sample_item "pet_1" "HW0001") (sample_item "pet_2" "HW0002")
           (description_at sample_const 3) (description_at sample_const 4)
           "tractive_tracker_wellness_updated-pet_1"
           "tractive_tracker_wellness_updated-pet_2"
           eq_refl eq_refl eq_refl).
Defined.

End MoreSamples.
